(** * Machine-Learning-Preprocessing-CLI: loader, cleaner and inspector

    A shallow embedding of [src/data_loader.py] and [src/cleaner.py].

    The two modules are thin layers of control flow over pandas, scipy,
    mimetypes and filetype.  The control flow is embedded as written; what
    the libraries compute from the file system or with floating point
    (parsers, MIME table, content sniffing, statistics) is a field of the
    record [Library], so every theorem holds for every behaviour of those
    calls.  What Python and pandas fix once and for all (string methods on
    ASCII text, truth values, attribute lookup, [dropna], [isnull],
    [empty]) is written out.  A Python string is carried as its UTF-8
    bytes: the separators "/" and "." are single bytes that occur in no
    longer character, and what [str.lower] does to a string with a
    character outside ASCII is left to the Unicode tables, a field of
    [Library] like the equality of cells behind [df.duplicated()].

    Three facts about pandas decide how far the functions run, and are
    stated where they are modelled:
    - [pandas.errors] has no class [EmptydfError] ([getattr_errors]), which
      line 70 of the loader names after [except];
    - [pandas.Series] has no attribute [zscore] ([getattr_Series]), which
      line 57 of the cleaner passes to [apply];
    - the truth value of a [pandas.Index] raises ValueError ([Index_bool]),
      and lines 207 and 268 of the loader module test one with [if].

    The error names of the specification are the ValueErrors of the code,
    told apart by their messages; its cleaning methods "drop-missing" and
    "fill-missing" are the literals "dropna" and "fillna". *)

From stdpp Require Import gmap strings list fin_maps.
From Stdlib Require Import Ascii ZArith QArith.

Local Open Scope string_scope.
Local Open Scope list_scope.
Local Open Scope nat_scope.

(* ===================================================================== *)
(** * Python: exceptions, results, strings                                *)
(* ===================================================================== *)

Module Py.

(** The exceptions the two modules can see.  [LibError cls msg] is an
    exception raised inside a library call, [cls] being the qualified name
    of its class.  [Dangling] is no Python exception: it marks a reference
    of the model that is not in the object store, which a Python name never
    is; the theorems exclude it by hypothesis. *)
Inductive exn :=
| ValueError (msg : string)
| AttributeError (msg : string)
| KeyError (key : string)
| IndexError (msg : string)
| UnboundLocalError (name : string)
| LibError (cls msg : string)
| Dangling (ref : nat).

Inductive outcome (A : Type) :=
| Return (a : A)
| Raise (e : exn).
Arguments Return {A} a.
Arguments Raise {A} e.

Definition bind {A B} (c : outcome A) (k : A -> outcome B) : outcome B :=
  match c with
  | Return a => k a
  | Raise e => Raise e
  end.

Definition is_Return {A} (c : outcome A) : bool :=
  match c with Return _ => true | Raise _ => false end.

(** [s.split(sep)] for a one-character separator. *)
Fixpoint split (sep : ascii) (s : string) : list string :=
  match s with
  | EmptyString => [EmptyString]
  | String c s' =>
      if Ascii.eqb c sep then EmptyString :: split sep s'
      else match split sep s' with
           | x :: xs => String c x :: xs
           | [] => [String c EmptyString]
           end
  end.

(** [c in s] for a character. *)
Fixpoint occurs (c : ascii) (s : string) : bool :=
  match s with
  | EmptyString => false
  | String c' s' => Ascii.eqb c' c || occurs c s'
  end.

(** [xs[i]] for [i >= 0] and [xs[-1]]. *)
Definition getitem {A} (xs : list A) (i : nat) : outcome A :=
  match nth_error xs i with
  | Some x => Return x
  | None => Raise (IndexError "list index out of range")
  end.

Definition getitem_last {A} (xs : list A) : outcome A :=
  match rev xs with
  | x :: _ => Return x
  | [] => Raise (IndexError "list index out of range")
  end.

(** [s.isascii()]: every byte is below 128. *)
Fixpoint is_ascii (s : string) : bool :=
  match s with
  | EmptyString => true
  | String c s' => (nat_of_ascii c <? 128) && is_ascii s'
  end.

(** [s.lower()] for a string of ASCII characters: the letters A to Z are
    replaced by a to z, every other character stays. *)
Definition lower_ascii (c : ascii) : ascii :=
  let n := nat_of_ascii c in
  if (65 <=? n) && (n <=? 90) then ascii_of_nat (n + 32) else c.

Fixpoint ascii_lower (s : string) : string :=
  match s with
  | EmptyString => EmptyString
  | String c s' => String (lower_ascii c) (ascii_lower s')
  end.

(** Whether one of the letters A to Z occurs in the string. *)
Definition capitals : string := "ABCDEFGHIJKLMNOPQRSTUVWXYZ".

Fixpoint has_capital (s : string) : bool :=
  match s with
  | EmptyString => false
  | String c s' => occurs c capitals || has_capital s'
  end.

(** Truth value of [None]-or-string and of [None]-or-list. *)
Definition truthy_str (o : option string) : bool :=
  match o with
  | Some s => negb (String.eqb s "")
  | None => false
  end.

Definition truthy_list {A} (o : option (list A)) : bool :=
  match o with
  | Some (_ :: _) => true
  | _ => false
  end.

(** [x in (a, b, c)] on strings. *)
Definition contains (xs : list string) (x : string) : bool :=
  existsb (String.eqb x) xs.

(** Values stored in an options dictionary. *)
Inductive value :=
| VStr (s : string)
| VFloat (q : Q)
| VNone.

(** [v == "literal"]. *)
Definition eq_str (v : value) (s : string) : bool :=
  match v with
  | VStr t => String.eqb t s
  | _ => false
  end.

(** [d[key]] on a dictionary. *)
Definition dict_getitem (d : gmap string value) (key : string) : outcome value :=
  match d !! key with
  | Some v => Return v
  | None => Raise (KeyError key)
  end.

End Py.
Import Py.

#[global] Instance outcome_ret : MRet outcome := @Return.
#[global] Instance outcome_bind : MBind outcome := fun A B k c => Py.bind c k.
#[global] Instance outcome_fmap : FMap outcome :=
  fun A B f c => Py.bind c (fun a => Return (f a)).

(* ===================================================================== *)
(** * pandas: the table                                                    *)
(* ===================================================================== *)

Module Pandas.

(** A cell.  [NA] is what [isnull()] reports ([None], [NaN], [NaT]). *)
Inductive cell :=
| NA
| Num (q : Q)
| Text (s : string)
| Flag (b : bool).

Definition row := list cell.

(** A DataFrame: ordered column labels and ordered rows.  The index
    labels are left out: no operation of the two modules reads them. *)
Record DataFrame := mkDataFrame {
  columns : list string;
  rows : list row
}.

Definition well_formed (d : DataFrame) : Prop :=
  Forall (fun r => length r = length (columns d)) (rows d).

(** [df.shape]. *)
Definition shape (d : DataFrame) : nat * nat :=
  (length (rows d), length (columns d)).

(** [df.empty]: some axis has length 0. *)
Definition empty (d : DataFrame) : bool :=
  (length (rows d) =? 0) || (length (columns d) =? 0).

Definition isna (c : cell) : bool :=
  match c with NA => true | _ => false end.

Definition notna (c : cell) : bool := negb (isna c).

Definition isna_at (j : nat) (r : row) : bool :=
  match nth_error r j with
  | Some c => isna c
  | None => false
  end.

(** [df.isnull().sum()]: missing cells per column. *)
Definition isnull_sum (d : DataFrame) : list nat :=
  map (fun j => length (List.filter (isna_at j) (rows d)))
      (seq 0 (length (columns d))).

(** [series.any()] on counts. *)
Definition any (counts : list nat) : bool :=
  existsb (fun n => negb (n =? 0)) counts.

Definition row_complete (r : row) : bool := forallb notna r.
Definition row_has_missing (r : row) : bool := negb (row_complete r).

(** [df.dropna()]: keep the rows without a missing cell. *)
Definition dropna (d : DataFrame) : DataFrame :=
  mkDataFrame (columns d) (List.filter row_complete (rows d)).

(** [mask.sum()]. *)
Definition sum_bool (mask : list bool) : nat :=
  length (List.filter (fun b => b) mask).

(** The classes [pandas.errors] exports. *)
Definition pandas_errors : list string :=
  [ "AbstractMethodError"; "AccessorRegistrationWarning";
    "AttributeConflictWarning"; "CategoricalConversionWarning";
    "ChainedAssignmentError"; "ClosedFileError"; "CSSWarning";
    "DatabaseError"; "DataError"; "DtypeWarning"; "DuplicateLabelError";
    "EmptyDataError"; "IncompatibilityWarning"; "IndexingError";
    "IntCastingNaNError"; "InvalidColumnName"; "InvalidComparison";
    "InvalidIndexError"; "InvalidVersion"; "LossySetitemError";
    "MergeError"; "NoBufferPresent"; "NullFrequencyError";
    "NumbaUtilError"; "NumExprClobberingError"; "OptionError";
    "OutOfBoundsDatetime"; "OutOfBoundsTimedelta"; "ParserError";
    "ParserWarning"; "PerformanceWarning"; "PossibleDataLossError";
    "PossiblePrecisionLoss"; "PyperclipException";
    "PyperclipWindowsException"; "SettingWithCopyError";
    "SettingWithCopyWarning"; "SpecificationError";
    "UndefinedVariableError"; "UnsortedIndexError";
    "UnsupportedFunctionCall"; "ValueLabelTypeMismatch" ].

(** [pd.errors.<name>]: the class, or AttributeError. *)
Definition getattr_errors (name : string) : outcome string :=
  if contains pandas_errors name then Return ("pandas.errors." +:+ name)
  else Raise (AttributeError
                ("module 'pandas.errors' has no attribute '" +:+ name +:+ "'")).

(** The computations and descriptive statistics [pandas.Series] offers
    (API reference, "Computations / descriptive stats").  A z-score is not
    among them, nor anywhere else on Series: it is [scipy.stats.zscore],
    which [check_outliers] of the loader module uses. *)
Definition Series_computations : list string :=
  [ "abs"; "all"; "any"; "autocorr"; "between"; "clip"; "corr"; "count";
    "cov"; "cummax"; "cummin"; "cumprod"; "cumsum"; "describe"; "diff";
    "factorize"; "kurt"; "kurtosis"; "max"; "mean"; "median"; "min";
    "mode"; "nlargest"; "nsmallest"; "pct_change"; "prod"; "quantile";
    "rank"; "sem"; "skew"; "std"; "sum"; "var"; "unique"; "nunique";
    "is_unique"; "is_monotonic_increasing"; "is_monotonic_decreasing";
    "value_counts" ].

(** [pd.Series.<name>] for the name of a computation: the unbound method,
    or AttributeError. *)
Definition getattr_Series (name : string) : outcome string :=
  if contains Series_computations name then Return ("Series." +:+ name)
  else Raise (AttributeError
                ("type object 'Series' has no attribute '" +:+ name +:+ "'")).

(** [bool(index)] for a pandas Index: [Index.__bool__] raises for every
    index, empty or not. *)
Definition Index_bool (idx : list string) : outcome bool :=
  Raise (ValueError
    "The truth value of a Index is ambiguous. Use a.empty, a.bool(), a.item(), a.any() or a.all().").

End Pandas.
Import Pandas.

(* ===================================================================== *)
(** * The libraries' side                                                 *)
(* ===================================================================== *)

(** What the environment decides: the MIME table and the file contents
    behind [mimetypes], [filetype] and the pandas parsers, and the floating
    point work of pandas, scipy and matplotlib.  Each call may raise. *)
Record Library := mkLibrary {
  (** [mimetypes.guess_type(path)[0]]: a function of the name alone. *)
  guess_type : string -> option string;
  (** [filetype.guess(path)]: the extension of the matched kind. *)
  filetype_guess : string -> outcome (option string);
  read_csv : string -> outcome DataFrame;
  read_excel : string -> outcome DataFrame;
  read_json : string -> outcome DataFrame;
  (** [s.lower()] for a string with a character outside ASCII: the answer
      of the Unicode tables of the interpreter. *)
  unicode_lower : string -> string;
  (** [df.duplicated()]: the mask of the rows that repeat an earlier row,
      under the equality pandas uses for the cells of each column. *)
  duplicated : DataFrame -> list bool;
  (** [df.fillna(...)], the argument being the literal Ellipsis. *)
  fillna_ellipsis : DataFrame -> outcome DataFrame;
  (** [df.apply(f)]. *)
  apply_columns : string -> DataFrame -> outcome DataFrame;
  (** [z.abs()], [a[a > t]], [.any(axis=1)], [.sum()] (cleaner, lines 58-61). *)
  count_outliers : DataFrame -> value -> outcome nat;
  (** [df.dtypes] and [df.select_dtypes(include=np.number).columns]. *)
  dtypes : DataFrame -> list string;
  number_columns : DataFrame -> list string;
  (** [df[cols].describe()]. *)
  describe : DataFrame -> list string -> outcome DataFrame;
  (** [df[(z.abs() > 3).any(axis=1)]]. *)
  outlier_rows : DataFrame -> DataFrame -> outcome DataFrame;
  (** [df[cols].plot(kind="box", ...)] and [df[cols].hist(...)]. *)
  plot_box : DataFrame -> list string -> outcome unit;
  plot_hist : DataFrame -> list string -> outcome unit;
  (** [df[(df[c] < lo) | (df[c] > hi)]]. *)
  out_of_range : DataFrame -> string -> Z -> Z -> outcome DataFrame;
  (** [df[cols].corr()]. *)
  corr : DataFrame -> list string -> outcome DataFrame;
  (** [df[cols].select_dtypes(...).apply(skew)] cut at [abs > 0.5]. *)
  skewed : DataFrame -> list string -> outcome DataFrame
}.

(* ===================================================================== *)
(** * data_loader.py: format inference and loading                        *)
(* ===================================================================== *)

Module DataLoader.

(** [try: body / except cls: handler].  The expression after [except] is
    evaluated only once the body has raised, and may raise itself. *)
Definition isinstance (e : exn) (cls : string) : bool :=
  match e with
  | LibError c _ => String.eqb c cls
  | _ => false
  end.

Definition try_except {A} (body : outcome A) (cls : outcome string)
    (handler : outcome A) : outcome A :=
  match body with
  | Return a => Return a
  | Raise e =>
      match cls with
      | Return c => if isinstance e c then handler else Raise e
      | Raise e' => Raise e'
      end
  end.

(** The three ValueErrors of [load_data], under the names of the
    specification's taxonomy. *)
Definition UnsupportedFormat (file_format : string) : exn :=
  ValueError ("Unsupported file format: " +:+ file_format
              +:+ ". Please use CSV, Excel, JSON, or provide the format manually.").

Definition EmptyFile_is_empty (file_path : string) : exn :=
  ValueError ("File '" +:+ file_path +:+ "' is empty.").

Definition EmptyFile_no_data (file_path : string) : exn :=
  ValueError ("File '" +:+ file_path +:+ "' contains no data.").

Definition is_EmptyFile (file_path : string) (e : exn) : Prop :=
  e = EmptyFile_is_empty file_path \/ e = EmptyFile_no_data file_path.

Definition supported : list string := ["csv"; "xlsx"; "json"].

Section WithLibrary.
Variable L : Library.

(** [s.lower()]. *)
Definition str_lower (s : string) : string :=
  if is_ascii s then ascii_lower s else unicode_lower L s.

(** [try_infer_format], lines 80-97. *)
Definition try_infer_format (file_path : string) : outcome string :=
  let mime_type := guess_type L file_path in
  if truthy_str mime_type then
    getitem (split "/" (default "" mime_type)) 1
  else
    kind ← filetype_guess L file_path;
    match kind with
    | Some extension => Return extension
    | None =>
        last_part ← getitem_last (split "." file_path);
        Return (str_lower last_part)
    end.

(** The parser [load_data] dispatches to; [None] leaves [df] unbound. *)
Definition parse (file_format file_path : string)
    : outcome (option DataFrame) :=
  if String.eqb file_format "csv" then Some <$> read_csv L file_path
  else if String.eqb file_format "xlsx" then Some <$> read_excel L file_path
  else if String.eqb file_format "json" then Some <$> read_json L file_path
  else Return None.

(** [load_data], lines 46-78. *)
Definition load_data (file_path : string) : outcome DataFrame :=
  file_format ← try_infer_format file_path;
  df ← (if contains supported file_format then
          try_except (parse file_format file_path)
                     (getattr_errors "EmptydfError")
                     (Raise (EmptyFile_is_empty file_path))
        else Raise (UnsupportedFormat file_format));
  match df with
  | None => Raise (UnboundLocalError "df")
  | Some d =>
      if empty d then Raise (EmptyFile_no_data file_path)
      else Return d
  end.

End WithLibrary.

End DataLoader.

(* ===================================================================== *)
(** * Running code that prints and allocates                              *)
(* ===================================================================== *)

Module Run.

(** What [print] is given. *)
Inductive fmt_arg :=
| ANat (n : nat)
| AValue (v : value).

Inductive item :=
| IStr (s : string)
| IFormat (template : string) (args : list fmt_arg)
| INat (n : nat)
| ICounts (counts : list nat)
| INames (names : list string)
| IFrame (d : DataFrame).

(** Observable output: a call of [print], or [plt.show()]. *)
Inductive event :=
| Print (items : list item)
| Show.

(** The object store of DataFrames (a Python name holds a reference) and
    the text written so far. *)
Record state := mkState {
  frames : gmap nat DataFrame;
  stdout : list event
}.

Definition M (A : Type) : Type := state -> outcome A * state.

Definition ret {A} (a : A) : M A := fun st => (Return a, st).

Definition bind {A B} (c : M A) (k : A -> M B) : M B :=
  fun st =>
    match c st with
    | (Return a, st') => k a st'
    | (Raise e, st') => (Raise e, st')
    end.

Definition lift {A} (c : outcome A) : M A := fun st => (c, st).

Definition raise {A} (e : exn) : M A := fun st => (Raise e, st).

Definition print (items : list item) : M unit :=
  fun st => (Return tt, mkState (frames st) (stdout st ++ [Print items])).

Definition show : M unit :=
  fun st => (Return tt, mkState (frames st) (stdout st ++ [Show])).

(** Reading the object behind a reference. *)
Definition deref (ref : nat) : M DataFrame :=
  fun st =>
    match frames st !! ref with
    | Some d => (Return d, st)
    | None => (Raise (Dangling ref), st)
    end.

(** A library call that builds a new DataFrame: a fresh reference. *)
Definition alloc (d : DataFrame) : M nat :=
  fun st =>
    let ref := fresh (dom (frames st)) in
    (Return ref, mkState (<[ref := d]> (frames st)) (stdout st)).

Definition nl : string := String (ascii_of_nat 10) EmptyString.

(** The steps that only read and print keep the object store. *)
Definition keeps_store {A} (c : M A) : Prop :=
  forall st, frames (c st).2 = frames st.

(** What a step adds to the output. *)
Definition output_of {A} (c : M A) (st : state) : list event :=
  drop (length (stdout st)) (stdout (c st).2).

(** Every event a step prints satisfies [P]. *)
Definition emits {A} (P : event -> Prop) (c : M A) : Prop :=
  forall st, exists out,
    stdout (c st).2 = stdout st ++ out /\ Forall P out.

(** A step that returns from no state. *)
Definition raises {A} (c : M A) : Prop :=
  forall st, is_Return (c st).1 = false.

End Run.
Import Run.

#[global] Instance M_ret : MRet M := @Run.ret.
#[global] Instance M_bind : MBind M := fun A B k c => Run.bind c k.

(* ===================================================================== *)
(** * cleaner.py                                                          *)
(* ===================================================================== *)

Module Cleaner.

(** The ValueError of line 40, under the specification's name.  The
    specification's methods "drop-missing" and "fill-missing" are the
    literals "dropna" and "fillna" of the code. *)
Definition InvalidCleaningMethod : exn :=
  ValueError "Invalid method for handling missing values.".

Definition drop_missing : string := "dropna".
Definition fill_missing : string := "fillna".

Section WithLibrary.
Variable L : Library.

(** Lines 31-42: the value bound to [cleaned_df]. *)
Definition handle_missing_values (df : nat) (d : DataFrame)
    (missing_counts : list nat) (options : gmap string value) : M nat :=
  if any missing_counts then
    method ← lift (dict_getitem options "method");
    if eq_str method drop_missing then
      cleaned_df ← alloc (dropna d);
      c ← deref cleaned_df;
      print [IStr (nl +:+ "Dropped rows with missing values:");
             INat ((shape d).1 - (shape c).1)];;
      mret cleaned_df
    else
      method' ← lift (dict_getitem options "method");
      if eq_str method' fill_missing then
        filled ← lift (fillna_ellipsis L d);
        cleaned_df ← alloc filled;
        print [IStr (nl +:+ "Filled missing values using specified strategy")];;
        mret cleaned_df
      else raise InvalidCleaningMethod
  else mret df.

(** Lines 44-54: duplicates are counted and reported. *)
Definition check_duplicates (cleaned_df : nat) : M unit :=
  c ← deref cleaned_df;
  let duplicate_count := sum_bool (duplicated L c) in
  print [IStr (nl +:+ "Number of duplicate rows:"); INat duplicate_count];;
  if 0 <? duplicate_count
  then print [IStr (nl +:+ "Duplicate rows not handled in this example.")]
  else print [IStr (nl +:+ "No duplicate rows found.")].

(** Lines 56-71: outliers by z-score are counted and reported. *)
Definition identify_outliers (cleaned_df : nat)
    (options : gmap string value) : M unit :=
  zscore ← lift (getattr_Series "zscore");
  c ← deref cleaned_df;
  z_scores ← lift (apply_columns L zscore c);
  threshold ← lift (dict_getitem options "threshold");
  outlier_count ← lift (count_outliers L z_scores threshold);
  threshold' ← lift (dict_getitem options "threshold");
  print [IFormat
           (nl +:+ "Potential outliers based on z-scores (absolute value > {}):")
           [AValue threshold']];;
  print [INat outlier_count];;
  if 0 <? outlier_count
  then print [IStr (nl +:+ "Outliers not handled in this example.")]
  else print [IStr (nl +:+ "No outliers identified based on specified threshold.")].

(** [clean_data], lines 6-78. *)
Definition clean_data (df : nat) (options : gmap string value) : M nat :=
  print [IStr "Initial DataFrame:"];;
  d ← deref df;
  print [IFrame d];;
  let missing_counts := isnull_sum d in
  print [IStr (nl +:+ "Missing values per column:")];;
  print [ICounts missing_counts];;
  cleaned_df ← handle_missing_values df d missing_counts options;
  check_duplicates cleaned_df;;
  identify_outliers cleaned_df options;;
  print [IStr (nl +:+ "Cleaned DataFrame:")];;
  c ← deref cleaned_df;
  print [IFrame c];;
  mret cleaned_df.

End WithLibrary.

(** What line 57 raises: [pd.Series.zscore] names no attribute. *)
Definition zscore_error : exn :=
  AttributeError "type object 'Series' has no attribute 'zscore'".

(** The state once lines 22-28 have printed the table and the counts. *)
Definition reported (st : state) (d : DataFrame) : state :=
  mkState (frames st)
    ((((stdout st ++ [Print [IStr "Initial DataFrame:"]])
         ++ [Print [IFrame d]])
        ++ [Print [IStr (nl +:+ "Missing values per column:")]])
       ++ [Print [ICounts (isnull_sum d)]]).

(** The default of the [options] parameter. *)
Definition default_options : gmap string value :=
  {[ "method" := VStr "dropna"; "threshold" := VFloat (3 # 1) ]}.

End Cleaner.

(* ===================================================================== *)
(** * data_loader.py: inspection                                          *)
(* ===================================================================== *)

Module Inspector.

(** The lines that open the report sections of steps 6 to 10. *)
Definition ranges_header : event :=
  Print [IStr "df ranges or patterns:"].
Definition corr_header : event :=
  Print [IStr "Correlation matrix for specified columns:"].
Definition skew_header : event :=
  Print [IStr "Columns with skewed distributions:"].
Definition visual_header : event :=
  Print [IStr "Visual exploration of the df:"].
Definition time_series_header : event :=
  Print [IStr "Visualizing time-related patterns:"].

(** The headers of the report sections of steps 6 to 10. *)
Definition later_headers : list event :=
  [ranges_header; corr_header; skew_header; visual_header; time_series_header].

Definition early (ev : event) : Prop := ~ In ev later_headers.

Section WithLibrary.
Variable L : Library.

Definition print_basic_info (df : nat) : M unit :=
  d ← deref df;
  print [IFormat "The data has {} rows and {} columns."
                 [ANat (shape d).1; ANat (shape d).2]];;
  print [IStr "data types of the columns:"];;
  print [INames (dtypes L d)].

Definition check_missing_values (df : nat) : M unit :=
  print [IStr "Number of missing values in each column:"];;
  d ← deref df;
  print [ICounts (isnull_sum d)].

Definition print_summary_stats (df : nat) : M unit :=
  d ← deref df;
  let numerical_cols := number_columns L d in
  print [IStr "Summary statistics for numerical columns:"];;
  stats ← lift (describe L d numerical_cols);
  print [IFrame stats].

Definition check_duplicate_rows (df : nat) : M unit :=
  print [IStr "Number of duplicate rows:"];;
  d ← deref df;
  print [INat (sum_bool (duplicated L d))].

Definition check_outliers (df : nat) : M unit :=
  print [IStr "Potential outliers based on z-scores:"];;
  d ← deref df;
  z_scores ← lift (apply_columns L "scipy.stats.zscore" d);
  outliers ← lift (outlier_rows L d z_scores);
  print [IFrame outliers];;
  print [IStr "Box plots for numerical columns:"];;
  let numerical_cols := number_columns L d in
  nonempty ← lift (Index_bool numerical_cols);
  (if nonempty : bool then lift (plot_box L d numerical_cols)
   else print [IStr "No numerical columns found."]);;
  show.

Definition check_df_ranges (df : nat) : M unit :=
  print [IStr "df ranges or patterns:"];;
  d ← deref df;
  (if contains (columns d) "Height"
   then bad ← lift (out_of_range L d "Height" 100 250); print [IFrame bad]
   else mret tt);;
  (if contains (columns d) "Weight"
   then bad ← lift (out_of_range L d "Weight" 20 200); print [IFrame bad]
   else mret tt).

Definition perform_corr_analysis (df : nat)
    (columns_for_corr : list string) : M unit :=
  print [IStr "Correlation matrix for specified columns:"];;
  d ← deref df;
  corr_matrix ← lift (corr L d columns_for_corr);
  print [IFrame corr_matrix].

Definition check_skewness (df : nat)
    (columns_for_skewness : list string) : M unit :=
  print [IStr "Columns with skewed distributions:"];;
  d ← deref df;
  skewed_columns ← lift (skewed L d columns_for_skewness);
  print [IFrame skewed_columns].

Definition perform_visual_exploration (df : nat) : M unit :=
  print [IStr "Visual exploration of the df:"];;
  d ← deref df;
  let numerical_cols := number_columns L d in
  nonempty ← lift (Index_bool numerical_cols);
  if nonempty : bool
  then lift (plot_hist L d numerical_cols);; show
  else mret tt.

Definition perform_time_series_analysis (df : nat) : M unit :=
  print [IStr "Visualizing time-related patterns:"].

(** Steps 7 and 8 of [inspect_data], lines 132-138. *)
Definition optional_steps (df : nat)
    (columns_for_corr columns_for_skewness : option (list string))
    : M unit :=
  (if truthy_list columns_for_corr
   then perform_corr_analysis df (default [] columns_for_corr)
   else mret tt);;
  (if truthy_list columns_for_skewness
   then check_skewness df (default [] columns_for_skewness)
   else mret tt).

(** [inspect_data], lines 99-144. *)
Definition inspect_data (df : nat)
    (columns_for_corr columns_for_skewness : option (list string))
    : M unit :=
  print_basic_info df;;
  check_missing_values df;;
  print_summary_stats df;;
  check_duplicate_rows df;;
  check_outliers df;;
  check_df_ranges df;;
  optional_steps df columns_for_corr columns_for_skewness;;
  perform_visual_exploration df;;
  perform_time_series_analysis df.

End WithLibrary.

End Inspector.

(* ===================================================================== *)
(** * Sample environments                                                 *)
(* ===================================================================== *)

Module Samples.

Definition people : DataFrame :=
  mkDataFrame ["name"; "age"]
    [ [Text "Ada"; Num (36 # 1)]; [Text "Alan"; Num (41 # 1)] ].

Definition header_only : DataFrame := mkDataFrame ["name"; "age"] [].

(** The scenario of the specification: one column, the first of three
    cells missing. *)
Definition heights : DataFrame :=
  mkDataFrame ["h"] [ [NA]; [Num (1 # 1)]; [Num (1 # 1)] ].

(** An all-numeric table with the two columns the range checks look at. *)
Definition measurements : DataFrame :=
  mkDataFrame ["Height"; "Weight"]
    [ [Num (170 # 1); Num (65 # 1)]; [Num (182 # 1); Num (80 # 1)];
      [Num (158 # 1); Num (52 # 1)] ].

(** A store that holds [people] at reference 0, [heights] at 1 and
    [measurements] at 2, and an empty output. *)
Definition store : state :=
  mkState (<[0 := people]> (<[1 := heights]> (<[2 := measurements]> ∅))) [].

Definition median_options : gmap string value :=
  {[ "method" := VStr "median"; "threshold" := VFloat (3 # 1) ]}.

Definition xlsx_mime : string :=
  "application/vnd.openxmlformats-officedocument.spreadsheetml.sheet".

Definition no_such_file {A} : outcome A :=
  Raise (LibError "FileNotFoundError" "No such file or directory").

(** A file system with six files: two CSV files, one of them only a
    header line; a file of JSON records; the same records saved under a
    [.csv] name; a spreadsheet without extension and a spreadsheet named
    [.xlsx].  The MIME table knows [.csv], [.json] and [.xlsx]. *)
Definition known_files : list string :=
  [ "/data/people.csv"; "/data/header_only.csv"; "/data/people.json";
    "/data/records.csv"; "/data/ledger"; "/data/book.xlsx"; "/data/notes.md" ].

Definition numeric_cell (c : cell) : bool :=
  match c with
  | NA | Num _ => true
  | _ => false
  end.

Definition numeric_column (d : DataFrame) (j : nat) : bool :=
  forallb (fun r => match nth_error r j with
                    | Some c => numeric_cell c
                    | None => true
                    end) (rows d).

Definition numeric_columns (d : DataFrame) : list string :=
  map fst (List.filter (fun p => numeric_column d p.2)
             (combine (columns d) (seq 0 (length (columns d))))).

Definition all_numeric (d : DataFrame) : bool :=
  length (numeric_columns d) =? length (columns d).

(** A stand-in for [df.duplicated()]: cells are compared as Python values
    (a flag equals the number 0 or 1, numbers by value, missing cells with
    each other), and a frame without rows or without columns has no
    duplicates. *)
Inductive cell_key :=
| KMissing
| KNumber (q : Q)
| KText (s : string).

Definition key_of (c : cell) : cell_key :=
  match c with
  | NA => KMissing
  | Num q => KNumber (Qred q)
  | Flag b => KNumber (if b then 1 # 1 else 0 # 1)
  | Text s => KText s
  end.

#[global] Instance Q_eq_dec : EqDecision Q.
Proof. solve_decision. Defined.
#[global] Instance cell_key_eq_dec : EqDecision cell_key.
Proof. solve_decision. Defined.

Fixpoint duplicated_from (seen : list (list cell_key)) (rs : list row)
    : list bool :=
  match rs with
  | [] => []
  | r :: rs' =>
      bool_decide (map key_of r ∈ seen)
      :: duplicated_from (map key_of r :: seen) rs'
  end.

Definition duplicated_rows (d : DataFrame) : list bool :=
  if empty d then [] else duplicated_from [] (rows d).

Definition library : Library :=
  {| guess_type := fun path =>
       match getitem_last (split "." path) with
       | Return "csv" => Some "text/csv"
       | Return "json" => Some "application/json"
       | Return "xlsx" => Some xlsx_mime
       | _ => None
       end;
     filetype_guess := fun path =>
       if contains ["/data/ledger"; "/data/book.xlsx"] path
       then Return (Some "xlsx")
       else if contains known_files path then Return None
       else no_such_file;
     read_csv := fun path =>
       if String.eqb path "/data/people.csv" then Return people
       else if String.eqb path "/data/header_only.csv" then Return header_only
       else if contains known_files path
       then Raise (LibError "pandas.errors.ParserError" "Error tokenizing data")
       else no_such_file;
     read_excel := fun path =>
       if contains ["/data/ledger"; "/data/book.xlsx"] path then Return people
       else no_such_file;
     read_json := fun path =>
       if contains ["/data/people.json"; "/data/records.csv"] path
       then Return people
       else no_such_file;
     (* no path of the sample has a character outside ASCII *)
     unicode_lower := fun s => s;
     duplicated := duplicated_rows;
     fillna_ellipsis := fun d => Return d;
     apply_columns := fun _ d =>
       if all_numeric d then Return d
       else Raise (LibError "TypeError" "unsupported operand type(s)");
     count_outliers := fun _ _ => Return 0;
     dtypes := fun d =>
       map (fun j => if numeric_column d j then "float64" else "object")
           (seq 0 (length (columns d)));
     number_columns := numeric_columns;
     describe := fun d cols =>
       match cols with
       | [] => Raise (LibError "ValueError"
                        "Cannot describe a DataFrame without columns")
       | _ => Return (mkDataFrame cols [])
       end;
     outlier_rows := fun d _ => Return (mkDataFrame (columns d) []);
     plot_box := fun _ _ => Return tt;
     plot_hist := fun _ _ => Return tt;
     out_of_range := fun d _ _ _ => Return (mkDataFrame (columns d) []);
     corr := fun d cols => Return (mkDataFrame cols []);
     skewed := fun d cols => Return (mkDataFrame cols []) |}.

End Samples.

(* ===================================================================== *)
(** * data_loader.py: the path check                                      *)
(* ===================================================================== *)

(** What [os.path] answers: [isabs] from the text of the path and the
    platform's rules, [exists] and [isfile] from the file system.  None of
    the three raises on a string. *)
Record OsPath := mkOsPath {
  isabs : string -> bool;
  path_exists : string -> bool;
  isfile : string -> bool
}.

Module PathValidator.

Definition msg_empty : event := Print [IStr "File path cannot be empty."].
Definition msg_relative : event := Print [IStr "File path must be absolute."].
Definition msg_missing : event := Print [IStr "File path does not exist."].
Definition msg_not_file : event := Print [IStr "File path is not a file."].

Section WithOsPath.
Variable os : OsPath.

(** [validate_file_path], lines 12-44. *)
Definition validate_file_path (file_path : string) : M bool :=
  if negb (truthy_str (Some file_path)) then
    print [IStr "File path cannot be empty."];; mret false
  else if negb (isabs os file_path) then
    print [IStr "File path must be absolute."];; mret false
  else if negb (path_exists os file_path) then
    print [IStr "File path does not exist."];; mret false
  else if negb (isfile os file_path) then
    print [IStr "File path is not a file."];; mret false
  else mret true.

End WithOsPath.

(** [posixpath.isabs]: the path starts with a slash. *)
Definition posix_isabs (path : string) : bool :=
  match path with
  | String c _ => Ascii.eqb c "/"
  | EmptyString => false
  end.

End PathValidator.

(* ===================================================================== *)
(** * More of the object store and of the sample environment              *)
(* ===================================================================== *)

Module Store.

(** A step under which every table of the store stays where and what it
    is; new tables may appear. *)
Definition extends_store {A} (c : M A) : Prop :=
  forall st, frames st ⊆ frames (c st).2.

End Store.
Import Store.

Module MoreSamples.

(** The directory [/data] with the files of [Samples.known_files]. *)
Definition os : OsPath :=
  {| isabs := PathValidator.posix_isabs;
     path_exists := fun path =>
       String.eqb path "/data" || contains Samples.known_files path;
     isfile := contains Samples.known_files |}.

(** The sample environment with one more file, a CSV file of zero bytes,
    on which [pd.read_csv] raises EmptyDataError. *)
Definition library_zero_csv : Library :=
  let L := Samples.library in
  {| guess_type := guess_type L;
     filetype_guess := filetype_guess L;
     read_csv := fun path =>
       if String.eqb path "/data/zero.csv"
       then Raise (LibError "pandas.errors.EmptyDataError"
                            "No columns to parse from file")
       else read_csv L path;
     read_excel := read_excel L;
     read_json := read_json L;
     unicode_lower := unicode_lower L;
     duplicated := duplicated L;
     fillna_ellipsis := fillna_ellipsis L;
     apply_columns := apply_columns L;
     count_outliers := count_outliers L;
     dtypes := dtypes L;
     number_columns := number_columns L;
     describe := describe L;
     outlier_rows := outlier_rows L;
     plot_box := plot_box L;
     plot_hist := plot_hist L;
     out_of_range := out_of_range L;
     corr := corr L;
     skewed := skewed L |}.

(** Options without a method, and options without a threshold. *)
Definition threshold_only : gmap string value :=
  {[ "threshold" := VFloat (5 # 2) ]}.

Definition method_only : gmap string value :=
  {[ "method" := VStr "dropna" ]}.

Definition fillna_options : gmap string value :=
  {[ "method" := VStr "fillna"; "threshold" := VFloat (3 # 1) ]}.


End MoreSamples.

(* ===================================================================== *)
(** * Properties of the loader                                            *)
(* ===================================================================== *)

(** One step of the result monad, without unfolding the source's functions. *)
Ltac py_step :=
  unfold mbind, outcome_bind, fmap, outcome_fmap; cbn [Py.bind].

Module DataLoaderFacts.
Import DataLoader.

(** ** [str.split] *)

Lemma split_nonempty sep s : split sep s <> [].
Proof.
  destruct s as [|c s]; simpl; [discriminate|].
  destruct (Ascii.eqb c sep); [discriminate|].
  destruct (split sep s); discriminate.
Qed.

Lemma split_no_sep sep s : occurs sep s = false -> split sep s = [s].
Proof.
  induction s as [|c s IH]; simpl; [reflexivity|].
  intros H. apply orb_false_iff in H as [Hc Hs].
  rewrite Hc, (IH Hs). reflexivity.
Qed.

Lemma split_app_sep sep a b :
  occurs sep a = false ->
  split sep (a +:+ String sep b) = a :: split sep b.
Proof.
  induction a as [|c a IH]; simpl.
  - intros _. rewrite Ascii.eqb_refl. reflexivity.
  - intros H. apply orb_false_iff in H as [Hc Ha].
    rewrite Hc, (IH Ha). reflexivity.
Qed.

Lemma getitem_last_split sep s :
  exists part, getitem_last (split sep s) = Return part.
Proof.
  unfold getitem_last.
  destruct (rev (split sep s)) as [|x xs] eqn:E; [|eauto].
  apply (f_equal (@rev _)) in E. rewrite rev_involutive in E.
  destruct (split_nonempty _ _ E).
Qed.

Lemma truthy_mime typ sub : truthy_str (Some (typ +:+ "/" +:+ sub)) = true.
Proof. destruct typ; reflexivity. Qed.

Section WithLibrary.
Variable L : Library.

(** ** Format inference *)

Lemma try_infer_format_mime file_path typ sub :
  guess_type L file_path = Some (typ +:+ "/" +:+ sub) ->
  occurs "/" typ = false ->
  occurs "/" sub = false ->
  try_infer_format L file_path = Return sub.
Proof.
  intros Hm Ht Hs. unfold try_infer_format.
  rewrite Hm, truthy_mime. simpl default.
  change (typ +:+ "/" +:+ sub) with (typ +:+ String "/" sub).
  rewrite (split_app_sep _ _ _ Ht), (split_no_sep _ _ Hs).
  reflexivity.
Qed.

Lemma try_infer_format_sniff file_path extension :
  truthy_str (guess_type L file_path) = false ->
  filetype_guess L file_path = Return (Some extension) ->
  try_infer_format L file_path = Return extension.
Proof.
  intros Hm Hk. unfold try_infer_format. rewrite Hm, Hk. reflexivity.
Qed.

Lemma try_infer_format_fallback file_path :
  truthy_str (guess_type L file_path) = false ->
  filetype_guess L file_path = Return None ->
  exists part,
    getitem_last (split "." file_path) = Return part /\
    try_infer_format L file_path = Return (str_lower L part).
Proof.
  intros Hm Hk. destruct (getitem_last_split "." file_path) as [part Hp].
  exists part. split; [exact Hp|].
  unfold try_infer_format. rewrite Hm, Hk. simpl.
  rewrite Hp. reflexivity.
Qed.

(** ** Dispatch *)

Lemma parse_supported file_format file_path d :
  (file_format = "csv" /\ read_csv L file_path = Return d) \/
  (file_format = "xlsx" /\ read_excel L file_path = Return d) \/
  (file_format = "json" /\ read_json L file_path = Return d) ->
  contains supported file_format = true /\
  parse L file_format file_path = Return (Some d).
Proof.
  intros [[-> H]|[[-> H]|[-> H]]]; (split; [reflexivity|]);
    unfold parse; simpl; rewrite H; reflexivity.
Qed.

Lemma contains_supported_false file_format :
  file_format <> "csv" -> file_format <> "xlsx" -> file_format <> "json" ->
  contains supported file_format = false.
Proof.
  intros H1 H2 H3. unfold contains, supported. simpl.
  apply String.eqb_neq in H1, H2, H3. rewrite H1, H2, H3. reflexivity.
Qed.

(** Whatever a parser raises, the handler of line 70 is not reached:
    naming the class after [except] fails first, because
    [pandas.errors] has no [EmptydfError] (its class for an empty input
    is [EmptyDataError]). *)
Lemma load_data_parser_exception_masked file_path file_format e :
  try_infer_format L file_path = Return file_format ->
  contains supported file_format = true ->
  parse L file_format file_path = Raise e ->
  load_data L file_path =
    Raise (AttributeError
             "module 'pandas.errors' has no attribute 'EmptydfError'").
Proof.
  intros Hf Hs Hp. unfold load_data. rewrite Hf. py_step.
  rewrite Hs, Hp. reflexivity.
Qed.

(** A spreadsheet named [.xlsx] on a system whose MIME table knows the
    extension: the subtype is not the tag ["xlsx"], and the file is
    rejected before any parser runs. *)
Lemma load_data_xlsx_by_mime_rejected file_path :
  guess_type L file_path = Some Samples.xlsx_mime ->
  load_data L file_path =
    Raise (UnsupportedFormat
             "vnd.openxmlformats-officedocument.spreadsheetml.sheet").
Proof.
  intros Hm. unfold load_data, try_infer_format. rewrite Hm. reflexivity.
Qed.

(** For each of the tags csv, xlsx and json: when the file is inferred
    to have that tag and the parser of that format reads it as the
    non-empty table [d], [load_data] raises nothing and returns [d]
    itself, so with exactly the rows and columns of the content. *)
Theorem load_data_returns_parsed_table file_path file_format d :
  try_infer_format L file_path = Return file_format ->
  (file_format = "csv" /\ read_csv L file_path = Return d) \/
  (file_format = "xlsx" /\ read_excel L file_path = Return d) \/
  (file_format = "json" /\ read_json L file_path = Return d) ->
  empty d = false ->
  load_data L file_path = Return d /\
  forall t, load_data L file_path = Return t -> shape t = shape d.
Proof.
  intros Hf Hr He.
  destruct (parse_supported _ _ _ Hr) as [Hs Hp].
  assert (Hload : load_data L file_path = Return d).
  { unfold load_data. rewrite Hf. py_step. rewrite Hs, Hp.
    cbn [try_except Py.bind]. rewrite He. reflexivity. }
  split; [exact Hload|].
  intros t Ht. rewrite Hload in Ht. injection Ht as <-. reflexivity.
Qed.

(** C2. The tiers answer in the order MIME, content, extension, and the
    first answer is final: a path to which the MIME table gives a type
    [typ/sub] is tagged [sub] whatever the content sniffing and the
    parsers would say; content sniffing is consulted only without a MIME
    type, and the lowercased last dot-separated part of the path only
    when both gave nothing. *)
Theorem try_infer_format_tiers file_path :
  (forall typ sub,
     guess_type L file_path = Some (typ +:+ "/" +:+ sub) ->
     occurs "/" typ = false -> occurs "/" sub = false ->
     try_infer_format L file_path = Return sub) /\
  (forall extension,
     truthy_str (guess_type L file_path) = false ->
     filetype_guess L file_path = Return (Some extension) ->
     try_infer_format L file_path = Return extension) /\
  (truthy_str (guess_type L file_path) = false ->
   filetype_guess L file_path = Return None ->
   exists part,
     getitem_last (split "." file_path) = Return part /\
     try_infer_format L file_path = Return (str_lower L part)).
Proof.
  split; [|split].
  - intros typ sub. apply try_infer_format_mime.
  - intros extension. apply try_infer_format_sniff.
  - apply try_infer_format_fallback.
Qed.

(** C3. A path whose inferred tag is none of csv, xlsx, json makes
    [load_data] raise the unsupported-format ValueError; no table is
    returned. *)
Theorem load_data_unsupported_format file_path file_format :
  try_infer_format L file_path = Return file_format ->
  file_format <> "csv" -> file_format <> "xlsx" -> file_format <> "json" ->
  load_data L file_path = Raise (UnsupportedFormat file_format) /\
  is_Return (load_data L file_path) = false.
Proof.
  intros Hf H1 H2 H3.
  assert (Hload : load_data L file_path = Raise (UnsupportedFormat file_format)).
  { unfold load_data. rewrite Hf. py_step.
    rewrite (contains_supported_false _ H1 H2 H3). reflexivity. }
  rewrite Hload. split; reflexivity.
Qed.

(** A file of a supported format whose parse returns a table without
    rows makes [load_data] raise the empty-file ValueError of line 76; no
    table is returned. *)
Theorem load_data_zero_rows_empty_file file_path file_format d :
  try_infer_format L file_path = Return file_format ->
  (file_format = "csv" /\ read_csv L file_path = Return d) \/
  (file_format = "xlsx" /\ read_excel L file_path = Return d) \/
  (file_format = "json" /\ read_json L file_path = Return d) ->
  length (rows d) = 0 ->
  load_data L file_path = Raise (EmptyFile_no_data file_path) /\
  is_EmptyFile file_path (EmptyFile_no_data file_path) /\
  is_Return (load_data L file_path) = false.
Proof.
  intros Hf Hr Hz.
  destruct (parse_supported _ _ _ Hr) as [Hs Hp].
  assert (Hload : load_data L file_path = Raise (EmptyFile_no_data file_path)).
  { unfold load_data. rewrite Hf. py_step. rewrite Hs, Hp.
    cbn [try_except Py.bind]. unfold empty. rewrite Hz. reflexivity. }
  rewrite Hload. split; [reflexivity|]. split; [right|]; reflexivity.
Qed.

End WithLibrary.

End DataLoaderFacts.

(* ===================================================================== *)
(** * Properties of the table operations                                  *)
(* ===================================================================== *)

Module PandasFacts.

Lemma isna_at_incomplete j r : isna_at j r = true -> row_complete r = false.
Proof.
  unfold isna_at, row_complete. revert j.
  induction r as [|c r IH]; intros [|j]; simpl; try discriminate.
  - intros H. unfold notna at 1. rewrite H. reflexivity.
  - intros H. rewrite (IH _ H). apply andb_false_r.
Qed.

Lemma incomplete_position r :
  row_complete r = false -> exists j, j < length r /\ isna_at j r = true.
Proof.
  unfold row_complete. induction r as [|c r IH]; simpl; [discriminate|].
  destruct (notna c) eqn:Hc; simpl.
  - intros H. destruct (IH H) as (j & Hj & Hna).
    exists (S j). split; [lia|exact Hna].
  - intros _. exists 0. split; [lia|]. unfold isna_at. simpl.
    unfold notna in Hc. apply negb_false_iff in Hc. exact Hc.
Qed.

(** A non-zero count comes from a row with a missing cell. *)
Lemma any_isnull_sum_row d :
  any (isnull_sum d) = true ->
  exists r, In r (rows d) /\ row_has_missing r = true.
Proof.
  unfold any, isnull_sum. intros H.
  apply existsb_exists in H as (n & Hin & Hn).
  apply in_map_iff in Hin as (j & <- & _).
  destruct (List.filter (isna_at j) (rows d)) as [|r rs] eqn:E;
    [discriminate|].
  assert (Hr : In r (List.filter (isna_at j) (rows d))) by (rewrite E; left; reflexivity).
  apply filter_In in Hr as [Hr Hna].
  exists r. split; [exact Hr|].
  unfold row_has_missing. rewrite (isna_at_incomplete _ _ Hna). reflexivity.
Qed.

Lemma any_isnull_sum_complete d :
  Forall (fun r => row_has_missing r = false) (rows d) ->
  any (isnull_sum d) = false.
Proof.
  intros Hall. destruct (any (isnull_sum d)) eqn:E; [|reflexivity].
  destruct (any_isnull_sum_row _ E) as (r & Hr & Hm).
  rewrite List.Forall_forall in Hall. rewrite (Hall r Hr) in Hm. discriminate.
Qed.

(** In a well-formed table a missing cell lies under some column, and
    that column's count is not zero. *)
Lemma any_isnull_sum_missing d r :
  well_formed d -> In r (rows d) -> row_has_missing r = true ->
  any (isnull_sum d) = true.
Proof.
  unfold well_formed. intros Hwf Hr Hm.
  rewrite List.Forall_forall in Hwf. specialize (Hwf r Hr).
  unfold row_has_missing in Hm. apply negb_true_iff in Hm.
  destruct (incomplete_position _ Hm) as (j & Hj & Hna).
  unfold any, isnull_sum. apply existsb_exists.
  exists (length (List.filter (isna_at j) (rows d))). split.
  - apply in_map_iff. exists j. split; [reflexivity|].
    apply in_seq. lia.
  - assert (Hin : In r (List.filter (isna_at j) (rows d)))
      by (apply filter_In; auto).
    destruct (List.filter (isna_at j) (rows d)); [destruct Hin|reflexivity].
Qed.

Lemma dropna_length d :
  length (rows (dropna d)) =
  length (rows d) - length (List.filter row_has_missing (rows d)).
Proof.
  unfold dropna, row_has_missing. simpl.
  pose proof (List.filter_length row_complete (rows d)). lia.
Qed.

Lemma dropna_complete d :
  Forall (fun r => row_has_missing r = false) (rows (dropna d)).
Proof.
  apply List.Forall_forall. intros r Hr. unfold dropna in Hr. simpl in Hr.
  apply filter_In in Hr as [_ Hc].
  unfold row_has_missing. rewrite Hc. reflexivity.
Qed.

Lemma dropna_columns d : columns (dropna d) = columns d.
Proof. reflexivity. Qed.

End PandasFacts.

(* ===================================================================== *)
(** * Properties of running code                                          *)
(* ===================================================================== *)

Module RunFacts.

Lemma run_bind {A B} (c : M A) (k : A -> M B) st :
  (c ≫= k) st =
  match c st with
  | (Return a, st') => k a st'
  | (Raise e, st') => (Raise e, st')
  end.
Proof. reflexivity. Qed.

Lemma run_print {B} items (k : unit -> M B) st :
  (print items ≫= k) st =
  k tt (mkState (frames st) (stdout st ++ [Print items])).
Proof. reflexivity. Qed.

Lemma run_deref {B} ref d (k : DataFrame -> M B) st :
  frames st !! ref = Some d -> (deref ref ≫= k) st = k d st.
Proof. intros H. rewrite run_bind. unfold deref. rewrite H. reflexivity. Qed.

Lemma run_lift_return {A B} (c : outcome A) a (k : A -> M B) st :
  c = Return a -> (lift c ≫= k) st = k a st.
Proof. intros ->. reflexivity. Qed.

Lemma run_lift_raise {A B} (c : outcome A) e (k : A -> M B) st :
  c = Raise e -> (lift c ≫= k) st = (Raise e, st).
Proof. intros ->. reflexivity. Qed.

Lemma run_raises {A B} (c : M A) (k : A -> M B) st e st' :
  c st = (Raise e, st') -> (c ≫= k) st = (Raise e, st').
Proof. intros H. rewrite run_bind, H. reflexivity. Qed.

Lemma run_returns {A B} (c : M A) (k : A -> M B) st a st' :
  c st = (Return a, st') -> (c ≫= k) st = k a st'.
Proof. intros H. rewrite run_bind, H. reflexivity. Qed.

(** A sequence whose continuation never returns never returns. *)
Lemma bind_never_returns {A B} (c : M A) (k : A -> M B) st :
  (forall a st', is_Return (k a st').1 = false) ->
  is_Return ((c ≫= k) st).1 = false.
Proof.
  intros Hk. rewrite run_bind. destruct (c st) as [[a|e] st'];
    [apply Hk|reflexivity].
Qed.

Lemma keeps_store_bind {A B} (c : M A) (k : A -> M B) :
  keeps_store c -> (forall a, keeps_store (k a)) -> keeps_store (c ≫= k).
Proof.
  intros Hc Hk st. rewrite run_bind. specialize (Hc st).
  destruct (c st) as [[a|e] st']; simpl in *; [|exact Hc].
  rewrite Hk. exact Hc.
Qed.

Lemma keeps_store_print items : keeps_store (print items).
Proof. intros st. reflexivity. Qed.

Lemma keeps_store_show : keeps_store show.
Proof. intros st. reflexivity. Qed.

Lemma keeps_store_deref ref : keeps_store (deref ref).
Proof. intros st. unfold deref. destruct (frames st !! ref); reflexivity. Qed.

Lemma keeps_store_lift {A} (c : outcome A) : keeps_store (lift c).
Proof. intros st. reflexivity. Qed.

Lemma keeps_store_ret {A} (a : A) : keeps_store (mret a : M A).
Proof. intros st. reflexivity. Qed.

Lemma keeps_store_raise {A} e : keeps_store (raise e : M A).
Proof. intros st. reflexivity. Qed.

Lemma keeps_store_if {A} (b : bool) (c1 c2 : M A) :
  keeps_store c1 -> keeps_store c2 -> keeps_store (if b then c1 else c2).
Proof. destruct b; auto. Qed.

End RunFacts.

Create HintDb store.
#[global] Hint Resolve RunFacts.keeps_store_print RunFacts.keeps_store_show
  RunFacts.keeps_store_deref RunFacts.keeps_store_lift
  RunFacts.keeps_store_ret RunFacts.keeps_store_raise : store.

(** Splits a sequence of store-keeping steps into its steps. *)
Ltac keeps_store :=
  repeat first
    [ apply RunFacts.keeps_store_bind; [|intros ?]
    | apply RunFacts.keeps_store_if
    | solve [auto with store] ].

(* ===================================================================== *)
(** * Properties of the cleaner                                           *)
(* ===================================================================== *)

Module CleanerFacts.
Import Cleaner RunFacts PandasFacts.

Lemma getattr_Series_zscore : getattr_Series "zscore" = Raise zscore_error.
Proof. reflexivity. Qed.

Section WithLibrary.
Variable L : Library.

(** ** Step 2: missing values *)

Lemma handle_missing_values_pass df d counts options st :
  any counts = false ->
  handle_missing_values L df d counts options st = (Return df, st).
Proof. intros H. unfold handle_missing_values. rewrite H. reflexivity. Qed.

Lemma handle_missing_values_dropna df d counts options st :
  any counts = true ->
  options !! "method" = Some (VStr "dropna") ->
  handle_missing_values L df d counts options st =
    (Return (fresh (dom (frames st))),
     mkState (<[fresh (dom (frames st)) := dropna d]> (frames st))
             (stdout st ++
              [Print [IStr (nl +:+ "Dropped rows with missing values:");
                      INat (length (rows d) - length (rows (dropna d)))]])).
Proof.
  intros Hany Hm. unfold handle_missing_values. rewrite Hany.
  rewrite (run_lift_return _ (VStr "dropna"));
    [|unfold dict_getitem; rewrite Hm; reflexivity].
  cbn [eq_str]. change (String.eqb "dropna" drop_missing) with true. cbv iota.
  rewrite run_bind. cbn [alloc].
  rewrite (run_deref _ (dropna d));
    [|cbn [frames]; apply lookup_insert_eq].
  reflexivity.
Qed.

Lemma handle_missing_values_invalid df d counts options s st :
  any counts = true ->
  options !! "method" = Some (VStr s) ->
  s <> "dropna" -> s <> "fillna" ->
  handle_missing_values L df d counts options st =
    (Raise InvalidCleaningMethod, st).
Proof.
  intros Hany Hm H1 H2. unfold handle_missing_values. rewrite Hany.
  assert (Hget : dict_getitem options "method" = Return (VStr s))
    by (unfold dict_getitem; rewrite Hm; reflexivity).
  rewrite (run_lift_return _ _ _ _ Hget). cbn [eq_str].
  unfold drop_missing, fill_missing.
  apply String.eqb_neq in H1, H2. rewrite H1.
  rewrite (run_lift_return _ _ _ _ Hget). cbn [eq_str]. rewrite H2.
  reflexivity.
Qed.

(** ** Steps 3 and 4: reports *)

Lemma check_duplicates_keeps_store ref : keeps_store (check_duplicates L ref).
Proof. unfold check_duplicates. keeps_store. Qed.

Lemma identify_outliers_keeps_store ref options :
  keeps_store (identify_outliers L ref options).
Proof. unfold identify_outliers. keeps_store. Qed.

Lemma check_duplicates_returns ref c st :
  frames st !! ref = Some c ->
  exists out,
    check_duplicates L ref st =
      (Return tt, mkState (frames st) (stdout st ++ out)).
Proof.
  intros H. unfold check_duplicates. rewrite (run_deref _ _ _ _ H).
  cbv zeta. rewrite run_print.
  destruct (0 <? sum_bool (duplicated L c)); unfold print; cbn [frames stdout];
    rewrite <- app_assoc; eexists; reflexivity.
Qed.

Lemma identify_outliers_raises ref options st :
  identify_outliers L ref options st = (Raise zscore_error, st).
Proof. reflexivity. Qed.

(** ** The whole function *)

Lemma clean_data_run df d options st :
  frames st !! df = Some d ->
  clean_data L df options st =
    match handle_missing_values L df d (isnull_sum d) options (reported st d) with
    | (Return cleaned_df, st2) =>
        match check_duplicates L cleaned_df st2 with
        | (Return _, st3) => (Raise zscore_error, st3)
        | (Raise e, st3) => (Raise e, st3)
        end
    | (Raise e, st2) => (Raise e, st2)
    end.
Proof.
  intros H. unfold clean_data. rewrite run_print.
  rewrite (run_deref _ d); [|exact H].
  rewrite run_print. cbv zeta. rewrite !run_print. rewrite run_bind.
  cbn [frames stdout]. unfold reported.
  destruct (handle_missing_values L df d (isnull_sum d) options _)
    as [[cleaned_df|e] st2]; [|reflexivity].
  cbv beta. rewrite run_bind.
  destruct (check_duplicates L cleaned_df st2) as [[[]|e] st3]; reflexivity.
Qed.

(** No input makes [clean_data] return: every path that survives
    steps 1 to 3 ends at line 57. *)
Lemma clean_data_never_returns df options st :
  is_Return (clean_data L df options st).1 = false.
Proof.
  unfold clean_data.
  do 1 (apply bind_never_returns; intros ? ?).
  do 1 (apply bind_never_returns; intros ? ?).
  do 1 (apply bind_never_returns; intros ? ?).
  cbv zeta.
  do 4 (apply bind_never_returns; intros ? ?).
  rewrite (run_raises _ _ _ _ _ (identify_outliers_raises _ _ _)).
  reflexivity.
Qed.

(** Once step 2 has bound [cleaned_df] to a table of the store, the
    duplicate report is printed and line 57 raises: nothing is
    returned, and the store is as step 2 left it. *)
Lemma clean_data_raises_after_step2 df d options st cleaned_df st2 c :
  frames st !! df = Some d ->
  handle_missing_values L df d (isnull_sum d) options (reported st d)
    = (Return cleaned_df, st2) ->
  frames st2 !! cleaned_df = Some c ->
  (clean_data L df options st).1 = Raise zscore_error /\
  frames (clean_data L df options st).2 = frames st2.
Proof.
  intros Hdf Hstep Hc. rewrite (clean_data_run _ _ _ _ Hdf), Hstep.
  destruct (check_duplicates_returns _ _ _ Hc) as [out ->].
  split; reflexivity.
Qed.

Lemma clean_data_complete_table df d options st :
  frames st !! df = Some d ->
  Forall (fun r => row_has_missing r = false) (rows d) ->
  handle_missing_values L df d (isnull_sum d) options (reported st d)
    = (Return df, reported st d) /\
  (clean_data L df options st).1 = Raise zscore_error /\
  frames (clean_data L df options st).2 = frames st.
Proof.
  intros Hdf Hall.
  assert (Hstep := handle_missing_values_pass df d _ options (reported st d)
                     (any_isnull_sum_complete _ Hall)).
  split; [exact Hstep|].
  apply (clean_data_raises_after_step2 _ _ _ _ _ _ d Hdf Hstep Hdf).
Qed.

Lemma filter_none {A} (f : A -> bool) l :
  Forall (fun x => f x = false) l -> List.filter f l = [].
Proof.
  induction 1 as [|x l Hx _ IH]; simpl; [reflexivity|].
  rewrite Hx. exact IH.
Qed.

Lemma complete_when_no_count d :
  well_formed d -> any (isnull_sum d) = false ->
  Forall (fun r => row_has_missing r = false) (rows d).
Proof.
  intros Hwf Hany. apply List.Forall_forall. intros r Hr.
  destruct (row_has_missing r) eqn:Hm; [|reflexivity].
  rewrite (any_isnull_sum_missing _ _ Hwf Hr Hm) in Hany. discriminate.
Qed.

End WithLibrary.

End CleanerFacts.

(* ===================================================================== *)
(** * The cleaner against its specification                               *)
(* ===================================================================== *)

Module CleanerClaims.
Import Cleaner RunFacts PandasFacts CleanerFacts.

Section WithLibrary.
Variable L : Library.

(** C5. With the method that drops rows, on a table of N rows of which M
    have a missing cell, step 2 binds [cleaned_df] to a table of N-M
    rows, none with a missing cell; but [clean_data] does not return
    it: line 57 raises AttributeError. *)
Theorem clean_data_dropna_raises_after_drop df d options st :
  frames st !! df = Some d ->
  well_formed d ->
  options !! "method" = Some (VStr "dropna") ->
  (exists cleaned_df st2 c,
     handle_missing_values L df d (isnull_sum d) options (reported st d)
       = (Return cleaned_df, st2) /\
     frames st2 !! cleaned_df = Some c /\
     length (rows c) =
       length (rows d) - length (List.filter row_has_missing (rows d)) /\
     Forall (fun r => row_has_missing r = false) (rows c)) /\
  (clean_data L df options st).1 = Raise zscore_error.
Proof.
  intros Hdf Hwf Hm.
  destruct (any (isnull_sum d)) eqn:Hany.
  - pose proof (handle_missing_values_dropna L df d _ options
                  (reported st d) Hany Hm) as Hstep.
    set (ref := fresh (dom (frames (reported st d)))) in *.
    assert (Hc : frames (mkState (<[ref := dropna d]> (frames (reported st d)))
                  (stdout (reported st d) ++
                   [Print [IStr (nl +:+ "Dropped rows with missing values:");
                           INat (length (rows d) - length (rows (dropna d)))]]))
                 !! ref = Some (dropna d))
      by apply lookup_insert_eq.
    split.
    + eexists _, _, (dropna d). split; [exact Hstep|].
      split; [exact Hc|]. split; [apply dropna_length|apply dropna_complete].
    + apply (clean_data_raises_after_step2 L _ _ _ _ _ _ _ Hdf Hstep Hc).
  - pose proof (complete_when_no_count _ Hwf Hany) as Hall.
    destruct (clean_data_complete_table L _ _ options _ Hdf Hall)
      as (Hstep & Hraise & _).
    split; [|exact Hraise].
    exists df, (reported st d), d. split; [exact Hstep|].
    split; [exact Hdf|]. split; [|exact Hall].
    rewrite (filter_none _ _ Hall). simpl. lia.
Qed.

(** C6, amended. On a table with at least one missing value, a method
    string that is neither of the two recognised ones makes
    [clean_data] raise the invalid-method ValueError; no table is
    returned and the object store, the input table included, is as
    before the call. *)
Theorem clean_data_invalid_method_aborts df d r options s st :
  frames st !! df = Some d ->
  well_formed d ->
  In r (rows d) -> row_has_missing r = true ->
  options !! "method" = Some (VStr s) ->
  s <> "dropna" -> s <> "fillna" ->
  (clean_data L df options st).1 = Raise InvalidCleaningMethod /\
  frames (clean_data L df options st).2 = frames st.
Proof.
  intros Hdf Hwf Hr Hmiss Hm H1 H2.
  rewrite (clean_data_run _ _ _ _ _ Hdf).
  rewrite (handle_missing_values_invalid L df d _ options s _
             (any_isnull_sum_missing _ _ Hwf Hr Hmiss) Hm H1 H2).
  split; reflexivity.
Qed.

(** C7. Whatever step 2 binds to [cleaned_df], the duplicate and
    outlier steps leave it in the store as it is, rows and values; but
    [clean_data] does not return it: line 57 raises AttributeError. *)
Theorem clean_data_reports_keep_table_no_return
    df d options st cleaned_df st2 c :
  frames st !! df = Some d ->
  handle_missing_values L df d (isnull_sum d) options (reported st d)
    = (Return cleaned_df, st2) ->
  frames st2 !! cleaned_df = Some c ->
  frames (clean_data L df options st).2 !! cleaned_df = Some c /\
  keeps_store (check_duplicates L cleaned_df) /\
  keeps_store (identify_outliers L cleaned_df options) /\
  (clean_data L df options st).1 = Raise zscore_error /\
  is_Return (clean_data L df options st).1 = false.
Proof.
  intros Hdf Hstep Hc.
  destruct (clean_data_raises_after_step2 L _ _ _ _ _ _ _ Hdf Hstep Hc)
    as [Hraise Hstore].
  split; [rewrite Hstore; exact Hc|].
  split; [apply check_duplicates_keeps_store|].
  split; [apply identify_outliers_keeps_store|].
  split; [exact Hraise|apply clean_data_never_returns].
Qed.

(** C8. On a table without missing values and with the method that drops
    rows, step 2 passes the input on unchanged (the same object); but
    [clean_data] does not return it: line 57 raises AttributeError. *)
Theorem clean_data_dropna_complete_table_raises df d options st :
  frames st !! df = Some d ->
  Forall (fun r => row_has_missing r = false) (rows d) ->
  options !! "method" = Some (VStr "dropna") ->
  handle_missing_values L df d (isnull_sum d) options (reported st d)
    = (Return df, reported st d) /\
  (clean_data L df options st).1 = Raise zscore_error /\
  frames (clean_data L df options st).2 = frames st.
Proof. intros Hdf Hall _. apply clean_data_complete_table; assumption. Qed.

(** C10. On a table without missing values the options are not read in
    step 2, whatever they hold, and the input is passed on unchanged;
    but [clean_data] raises all the same: AttributeError at line 57. *)
Theorem clean_data_complete_table_any_method_raises df d options st :
  frames st !! df = Some d ->
  Forall (fun r => row_has_missing r = false) (rows d) ->
  handle_missing_values L df d (isnull_sum d) options (reported st d)
    = (Return df, reported st d) /\
  (clean_data L df options st).1 = Raise zscore_error /\
  (clean_data L df options st).1 <> Raise InvalidCleaningMethod /\
  frames (clean_data L df options st).2 = frames st.
Proof.
  intros Hdf Hall.
  destruct (clean_data_complete_table L _ _ options _ Hdf Hall)
    as (Hstep & Hraise & Hstore).
  repeat split; try assumption. rewrite Hraise. discriminate.
Qed.

End WithLibrary.

End CleanerClaims.

(* ===================================================================== *)
(** * Properties of the inspector                                         *)
(* ===================================================================== *)

Module InspectorFacts.
Import Inspector RunFacts.

Lemma output_of_emits {A} P (c : M A) st :
  emits P c -> Forall P (output_of c st).
Proof.
  intros H. destruct (H st) as (out & Hout & HP).
  unfold output_of. rewrite Hout, drop_app_length. exact HP.
Qed.

Lemma emits_bind {A B} P (c : M A) (k : A -> M B) :
  emits P c -> (forall a, emits P (k a)) -> emits P (c ≫= k).
Proof.
  intros Hc Hk st. rewrite run_bind.
  destruct (Hc st) as (out & Hout & HP).
  destruct (c st) as [[a|e] st']; simpl in *.
  - destruct (Hk a st') as (out' & Hout' & HP').
    exists (out ++ out'). rewrite Hout', Hout, app_assoc.
    split; [reflexivity|]. apply Forall_app; auto.
  - exists out. auto.
Qed.

(** What follows a step that always raises prints nothing. *)
Lemma emits_bind_raises {A B} P (c : M A) (k : A -> M B) :
  emits P c -> raises c -> emits P (c ≫= k).
Proof.
  intros Hc Hr st. rewrite run_bind.
  destruct (Hc st) as (out & Hout & HP). specialize (Hr st).
  destruct (c st) as [[a|e] st']; simpl in *; [discriminate|].
  exists out. auto.
Qed.

Lemma emits_print (P : event -> Prop) items :
  P (Print items) -> emits P (print items).
Proof. intros H st. exists [Print items]. split; [reflexivity|]. auto. Qed.

Lemma emits_show (P : event -> Prop) : P Show -> emits P show.
Proof. intros H st. exists [Show]. split; [reflexivity|]. auto. Qed.

Lemma emits_deref P ref : emits P (deref ref).
Proof.
  intros st. exists []. rewrite app_nil_r. unfold deref.
  destruct (frames st !! ref); split; auto.
Qed.

Lemma emits_lift {A} P (c : outcome A) : emits P (lift c).
Proof. intros st. exists []. rewrite app_nil_r. split; auto. Qed.

Lemma emits_ret {A} P (a : A) : emits P (mret a : M A).
Proof. intros st. exists []. rewrite app_nil_r. split; auto. Qed.

Lemma emits_if {A} P (b : bool) (c1 c2 : M A) :
  emits P c1 -> emits P c2 -> emits P (if b then c1 else c2).
Proof. destruct b; auto. Qed.

Lemma raises_bind_left {A B} (c : M A) (k : A -> M B) :
  raises c -> raises (c ≫= k).
Proof.
  intros Hc st. rewrite run_bind. specialize (Hc st).
  destruct (c st) as [[a|e] st']; simpl in *; [discriminate|reflexivity].
Qed.

Lemma raises_bind_right {A B} (c : M A) (k : A -> M B) :
  (forall a, raises (k a)) -> raises (c ≫= k).
Proof. intros Hk st. apply bind_never_returns. intros a st'. apply Hk. Qed.

Lemma raises_Index_bool idx : raises (lift (Index_bool idx)).
Proof. intros st. reflexivity. Qed.

End InspectorFacts.

(** Splits a sequence of steps into its steps, [tac] proving the property of
    each printed event. *)
Ltac emits_steps tac :=
  cbv zeta;
  repeat first
    [ apply InspectorFacts.emits_deref
    | apply InspectorFacts.emits_lift
    | apply InspectorFacts.emits_ret
    | apply InspectorFacts.emits_print; tac
    | apply InspectorFacts.emits_show; tac
    | apply InspectorFacts.emits_if
    | apply InspectorFacts.emits_bind; [|intros ?] ].

(* ===================================================================== *)
(** * The inspector against its specification                             *)
(* ===================================================================== *)

Module InspectorClaims.
Import Inspector RunFacts InspectorFacts.

Ltac early_event :=
  let H := fresh in
  intros H; repeat (destruct H as [H|H]; [discriminate H|]); destruct H.

Section WithLibrary.
Variable L : Library.

Lemma print_basic_info_early df : emits early (print_basic_info L df).
Proof. unfold print_basic_info. emits_steps early_event. Qed.

Lemma check_missing_values_early df : emits early (check_missing_values df).
Proof. unfold check_missing_values. emits_steps early_event. Qed.

Lemma print_summary_stats_early df : emits early (print_summary_stats L df).
Proof. unfold print_summary_stats. emits_steps early_event. Qed.

Lemma check_duplicate_rows_early df : emits early (check_duplicate_rows L df).
Proof. unfold check_duplicate_rows. emits_steps early_event. Qed.

Lemma check_outliers_early df : emits early (check_outliers L df).
Proof. unfold check_outliers. emits_steps early_event. Qed.

(** Step 5 returns from no state: [if numerical_cols:] asks a pandas
    Index for its truth value. *)
Lemma check_outliers_raises df : raises (check_outliers L df).
Proof.
  unfold check_outliers. cbv zeta.
  do 6 (apply raises_bind_right; intros ?).
  apply raises_bind_left, raises_Index_bool.
Qed.

Lemma inspect_data_early df columns_for_corr columns_for_skewness :
  emits early (inspect_data L df columns_for_corr columns_for_skewness).
Proof.
  unfold inspect_data.
  apply emits_bind; [apply print_basic_info_early|intros _].
  apply emits_bind; [apply check_missing_values_early|intros _].
  apply emits_bind; [apply print_summary_stats_early|intros _].
  apply emits_bind; [apply check_duplicate_rows_early|intros _].
  apply emits_bind_raises;
    [apply check_outliers_early|apply check_outliers_raises].
Qed.

Lemma inspect_data_raises df columns_for_corr columns_for_skewness :
  raises (inspect_data L df columns_for_corr columns_for_skewness).
Proof.
  unfold inspect_data.
  do 4 (apply raises_bind_right; intros ?).
  apply raises_bind_left, check_outliers_raises.
Qed.

(** X18. Lines 132-138 taken on their own do what they are written for: run
    from any state, they open the correlation section exactly when
    [columns_for_corr] is a non-empty list. *)
Lemma optional_steps_corr_gate df columns_for_corr columns_for_skewness st :
  In corr_header
     (output_of (optional_steps L df columns_for_corr columns_for_skewness) st)
  <-> truthy_list columns_for_corr = true.
Proof.
  unfold optional_steps. destruct (truthy_list columns_for_corr); split.
  - reflexivity.
  - intros _. unfold perform_corr_analysis.
    set (k := fun _ : unit =>
                if truthy_list columns_for_skewness
                then check_skewness L df (default [] columns_for_skewness)
                else mret tt).
    set (rest := deref df ≫= fun d =>
                 lift (corr L d (default [] columns_for_corr)) ≫= fun m =>
                 print [IFrame m]).
    assert (Hrest : emits (fun _ => True) (rest ≫= k)).
    { unfold rest, k, check_skewness. emits_steps ltac:(exact I). }
    destruct (Hrest (mkState (frames st) (stdout st ++ [corr_header])))
      as (out & Hout & _).
    unfold output_of.
    change (stdout (((print [IStr "Correlation matrix for specified columns:"]
                       ≫= fun _ => rest) ≫= k) st).2)
      with (stdout ((rest ≫= k)
              (mkState (frames st) (stdout st ++ [corr_header]))).2).
    rewrite Hout. cbn [stdout]. rewrite <- app_assoc, drop_app_length.
    left. reflexivity.
  - intros Hin. exfalso.
    assert (He : emits (fun ev => ev <> corr_header)
                   (mret tt ≫= fun _ : unit =>
                      if truthy_list columns_for_skewness
                      then check_skewness L df (default [] columns_for_skewness)
                      else mret tt)).
    { unfold check_skewness. emits_steps ltac:(discriminate). }
    apply (output_of_emits _ _ st) in He.
    rewrite List.Forall_forall in He. exact (He _ Hin eq_refl).
  - discriminate.
Qed.

(** C9. For every table and every choice of the two optional arguments,
    [inspect_data] stops with an exception in step 5: neither the
    correlation nor the skewness section is ever produced, supplied
    columns or not, and the sections of steps 6, 9 and 10 are not
    produced either. *)
Theorem inspect_data_stops_in_step5
    df columns_for_corr columns_for_skewness st :
  let run := inspect_data L df columns_for_corr columns_for_skewness in
  is_Return (run st).1 = false /\
  ~ In corr_header (output_of run st) /\
  ~ In skew_header (output_of run st) /\
  ~ In ranges_header (output_of run st) /\
  ~ In visual_header (output_of run st) /\
  ~ In time_series_header (output_of run st).
Proof.
  intros run. split; [apply inspect_data_raises|].
  pose proof (output_of_emits early run st
                (inspect_data_early df columns_for_corr columns_for_skewness))
    as Hall.
  rewrite List.Forall_forall in Hall.
  repeat split; intros Hin; apply (Hall _ Hin);
    unfold later_headers; simpl; tauto.
Qed.

End WithLibrary.

End InspectorClaims.

(* ===================================================================== *)
(** * The theorems at the sample environment                              *)
(* ===================================================================== *)

Module Instances.
Import DataLoader Cleaner Inspector.
Import DataLoaderFacts CleanerFacts CleanerClaims InspectorFacts InspectorClaims.
Import Samples.

(** A CSV file, a sniffed spreadsheet and a JSON file load as parsed. *)
Lemma load_data_three_formats :
  (try_infer_format library "/data/people.csv" = Return "csv" /\
   read_csv library "/data/people.csv" = Return people /\
   empty people = false /\
   load_data library "/data/people.csv" = Return people) /\
  (try_infer_format library "/data/ledger" = Return "xlsx" /\
   load_data library "/data/ledger" = Return people) /\
  (try_infer_format library "/data/people.json" = Return "json" /\
   load_data library "/data/people.json" = Return people).
Proof.
  split; [|split].
  - split; [reflexivity|]. split; [reflexivity|]. split; [reflexivity|].
    apply (load_data_returns_parsed_table library "/data/people.csv" "csv" people);
      [reflexivity | left; split; reflexivity | reflexivity].
  - split; [reflexivity|].
    apply (load_data_returns_parsed_table library "/data/ledger" "xlsx" people);
      [reflexivity | right; left; split; reflexivity | reflexivity].
  - split; [reflexivity|].
    apply (load_data_returns_parsed_table library "/data/people.json" "json" people);
      [reflexivity | right; right; split; reflexivity | reflexivity].
Defined.

(** JSON records saved as [records.csv] are tagged csv, although the JSON
    parser reads them and the CSV parser does not. *)
Lemma records_csv_inferred_csv :
  read_json library "/data/records.csv" = Return people /\
  is_Return (read_csv library "/data/records.csv") = false /\
  guess_type library "/data/records.csv" = Some ("text" +:+ "/" +:+ "csv") /\
  try_infer_format library "/data/records.csv" = Return "csv" /\
  try_infer_format library "/data/ledger" = Return "xlsx" /\
  try_infer_format library "/data/notes.md" = Return "md".
Proof.
  split; [reflexivity|]. split; [reflexivity|]. split; [reflexivity|].
  split; [|split].
  - apply (proj1 (try_infer_format_tiers library "/data/records.csv") "text" "csv");
      reflexivity.
  - apply (proj1 (proj2 (try_infer_format_tiers library "/data/ledger")) "xlsx");
      reflexivity.
  - destruct (proj2 (proj2 (try_infer_format_tiers library "/data/notes.md"))
                eq_refl eq_refl) as (part & Hpart & ->).
    vm_compute in Hpart. injection Hpart as <-. reflexivity.
Defined.

Lemma notes_md_unsupported :
  try_infer_format library "/data/notes.md" = Return "md" /\
  load_data library "/data/notes.md" = Raise (UnsupportedFormat "md").
Proof.
  split; [reflexivity|].
  apply (load_data_unsupported_format library "/data/notes.md" "md");
    [reflexivity | discriminate | discriminate | discriminate].
Defined.

Lemma header_only_csv_empty_file :
  try_infer_format library "/data/header_only.csv" = Return "csv" /\
  read_csv library "/data/header_only.csv" = Return header_only /\
  length (rows header_only) = 0 /\
  load_data library "/data/header_only.csv"
    = Raise (EmptyFile_no_data "/data/header_only.csv").
Proof.
  split; [reflexivity|]. split; [reflexivity|]. split; [reflexivity|].
  apply (load_data_zero_rows_empty_file library "/data/header_only.csv"
           "csv" header_only);
    [reflexivity | left; split; reflexivity | reflexivity].
Defined.

Lemma heights_well_formed : well_formed heights.
Proof. repeat constructor. Defined.

Lemma people_complete :
  Forall (fun r => row_has_missing r = false) (rows people).
Proof. repeat constructor. Defined.

(** The scenario of the specification: step 2 leaves two rows, and nothing
    is returned. *)
Lemma heights_dropna_raises :
  frames store !! 1 = Some heights /\
  default_options !! "method" = Some (VStr "dropna") /\
  length (rows (dropna heights)) = 2 /\
  (clean_data library 1 default_options store).1 = Raise zscore_error.
Proof.
  split; [reflexivity|]. split; [reflexivity|]. split; [reflexivity|].
  apply (clean_data_dropna_raises_after_drop library 1 heights default_options store);
    [reflexivity | exact heights_well_formed | reflexivity].
Defined.

(** In the same run one row is dropped and one duplicate is reported
    before the exception. *)
Example heights_reports_before_raise :
  let out := stdout (clean_data library 1 default_options store).2 in
  In (Print [IStr (nl +:+ "Dropped rows with missing values:"); INat 1]) out /\
  In (Print [IStr (nl +:+ "Number of duplicate rows:"); INat 1]) out /\
  ~ In (Print [IStr (nl +:+ "Cleaned DataFrame:")]) out.
Proof.
  vm_compute. split; [tauto|]. split; [tauto|].
  intros H. repeat (destruct H as [H|H]; [discriminate H|]). exact H.
Qed.

(** The claim of an abort on every unrecognised method fails on a table
    without missing values: the method is not looked at, the duplicate
    report of step 3 is printed, and the exception that ends the run is not
    the invalid-method error. *)
Lemma people_median_not_invalid_method :
  frames store !! 0 = Some people /\
  Forall (fun r => row_has_missing r = false) (rows people) /\
  median_options !! "method" = Some (VStr "median") /\
  "median" <> "dropna" /\ "median" <> "fillna" /\
  (clean_data library 0 median_options store).1 <> Raise InvalidCleaningMethod /\
  In (Print [IStr (nl +:+ "No duplicate rows found.")])
     (stdout (clean_data library 0 median_options store).2).
Proof.
  split; [reflexivity|]. split; [exact people_complete|].
  split; [reflexivity|]. split; [discriminate|]. split; [discriminate|].
  split; [vm_compute; discriminate|].
  vm_compute. tauto.
Qed.

Lemma heights_median_aborts :
  frames store !! 1 = Some heights /\
  In [NA] (rows heights) /\ row_has_missing [NA] = true /\
  median_options !! "method" = Some (VStr "median") /\
  (clean_data library 1 median_options store).1 = Raise InvalidCleaningMethod /\
  frames (clean_data library 1 median_options store).2 = frames store.
Proof.
  split; [reflexivity|]. split; [left; reflexivity|]. split; [reflexivity|].
  split; [reflexivity|].
  apply (clean_data_invalid_method_aborts library 1 heights [NA]
           median_options "median" store);
    [reflexivity | exact heights_well_formed | left; reflexivity | reflexivity
    | reflexivity | discriminate | discriminate].
Defined.

Lemma heights_step2_table_kept_not_returned :
  frames (clean_data library 1 default_options store).2 !! 3
    = Some (dropna heights) /\
  (clean_data library 1 default_options store).1 = Raise zscore_error.
Proof.
  destruct (clean_data_reports_keep_table_no_return library 1 heights
              default_options store 3
              (handle_missing_values library 1 heights (isnull_sum heights)
                 default_options (reported store heights)).2
              (dropna heights))
    as (Hkept & _ & _ & Hraise & _);
    [reflexivity | vm_compute; reflexivity | vm_compute; reflexivity |].
  split; [exact Hkept|exact Hraise].
Defined.

Lemma people_dropna_raises :
  frames store !! 0 = Some people /\
  default_options !! "method" = Some (VStr "dropna") /\
  (clean_data library 0 default_options store).1 = Raise zscore_error.
Proof.
  split; [reflexivity|]. split; [reflexivity|].
  apply (clean_data_dropna_complete_table_raises library 0 people
           default_options store);
    [reflexivity | exact people_complete | reflexivity].
Defined.

Lemma people_median_raises :
  frames store !! 0 = Some people /\
  median_options !! "method" = Some (VStr "median") /\
  (clean_data library 0 median_options store).1 = Raise zscore_error.
Proof.
  split; [reflexivity|]. split; [reflexivity|].
  apply (clean_data_complete_table_any_method_raises library 0 people
           median_options store);
    [reflexivity | exact people_complete].
Defined.

(** An all-numeric table inspected with correlation columns: the run ends
    in step 5 and the correlation section is not in the output. *)
Example inspect_measurements_with_corr :
  let run := inspect_data library 2 (Some ["Height"; "Weight"]) None in
  (run store).1 =
    Raise (ValueError
      "The truth value of a Index is ambiguous. Use a.empty, a.bool(), a.item(), a.any() or a.all().") /\
  ~ In corr_header (stdout (run store).2).
Proof.
  split; [reflexivity|].
  vm_compute. intros H.
  repeat (destruct H as [H|H]; [discriminate H|]). exact H.
Qed.

(** A CSV file of zero bytes: pandas raises EmptyDataError, and
    [load_data] raises AttributeError instead of the ValueError of line
    71. *)
Example load_zero_byte_csv (L : Library) :
  guess_type L "/data/zero.csv" = Some "text/csv" ->
  read_csv L "/data/zero.csv"
    = Raise (LibError "pandas.errors.EmptyDataError"
                      "No columns to parse from file") ->
  load_data L "/data/zero.csv" =
    Raise (AttributeError
             "module 'pandas.errors' has no attribute 'EmptydfError'").
Proof.
  intros Hm Hr.
  eapply (load_data_parser_exception_masked L _ "csv").
  - unfold try_infer_format. rewrite Hm. reflexivity.
  - reflexivity.
  - unfold parse. cbn. rewrite Hr. reflexivity.
Qed.

End Instances.

(* ===================================================================== *)
(** * Further properties: the path check                                  *)
(* ===================================================================== *)

Module PathValidatorFacts.
Import PathValidator RunFacts.

Lemma output_of_print_ret {A} items (a : A) st :
  output_of (print items ;; mret a) st = [Print items].
Proof.
  unfold output_of. rewrite run_print.
  change (drop (length (stdout st)) (stdout st ++ [Print items]) = [Print items]).
  apply drop_app_length.
Qed.

Lemma output_of_ret {A} (a : A) st : output_of (mret a : M A) st = [].
Proof. unfold output_of. apply drop_all. Qed.

Lemma empty_path_test p : negb (truthy_str (Some p)) = String.eqb p "".
Proof. unfold truthy_str. apply negb_involutive. Qed.

Section WithOsPath.
Variable os : OsPath.

(** X1. [validate_file_path] raises nothing and changes no table; it answers
    True exactly for a non-empty, absolute path that exists and is a
    regular file. *)
Theorem validate_file_path_accepts_iff file_path st :
  (exists b, (validate_file_path os file_path st).1 = Return b) /\
  ((validate_file_path os file_path st).1 = Return true <->
   file_path <> "" /\ isabs os file_path = true /\
   path_exists os file_path = true /\ isfile os file_path = true) /\
  frames (validate_file_path os file_path st).2 = frames st.
Proof.
  unfold validate_file_path. rewrite empty_path_test.
  destruct (String.eqb_spec file_path "") as [He|He];
    [|destruct (isabs os file_path);
      [destruct (path_exists os file_path);
       [destruct (isfile os file_path)|]|]];
    cbn; (split; [eexists; reflexivity|]); (split; [|reflexivity]);
    split; try discriminate; try (intros (? & ? & ? & ?); congruence);
    intros _; auto.
Qed.

(** X2. An accepted path prints nothing; a rejected path prints exactly one
    line, that of the first check that fails in the order empty, relative,
    missing, not a file, each with its own text.  The empty path is
    reported as empty whatever the file system holds. *)
Theorem validate_file_path_one_reason file_path st :
  let out := output_of (validate_file_path os file_path) st in
  ((validate_file_path os file_path st).1 = Return true -> out = []) /\
  ((validate_file_path os file_path st).1 = Return false ->
   exists m, In m [msg_empty; msg_relative; msg_missing; msg_not_file] /\
             out = [m]) /\
  (file_path = "" -> out = [msg_empty]) /\
  (file_path <> "" -> isabs os file_path = false -> out = [msg_relative]) /\
  (file_path <> "" -> isabs os file_path = true ->
   path_exists os file_path = false -> out = [msg_missing]) /\
  (file_path <> "" -> isabs os file_path = true ->
   path_exists os file_path = true -> isfile os file_path = false ->
   out = [msg_not_file]).
Proof.
  unfold validate_file_path. rewrite empty_path_test.
  destruct (String.eqb_spec file_path "") as [He|He];
    [|destruct (isabs os file_path);
      [destruct (path_exists os file_path);
       [destruct (isfile os file_path)|]|]];
    cbn [negb]; cbv zeta;
    rewrite ?output_of_print_ret, ?output_of_ret;
    repeat split; try discriminate; try congruence; try reflexivity;
    intros _; eexists; (split; [|reflexivity]); simpl; tauto.
Qed.

End WithOsPath.

End PathValidatorFacts.

(* ===================================================================== *)
(** * Further properties: the loader                                      *)
(* ===================================================================== *)

Module LoaderExtras.
Import DataLoader DataLoaderFacts.

Definition EmptydfError_missing : exn :=
  AttributeError "module 'pandas.errors' has no attribute 'EmptydfError'".

Lemma contains_supported_true file_format :
  contains supported file_format = true ->
  file_format = "csv" \/ file_format = "xlsx" \/ file_format = "json".
Proof.
  unfold contains, supported. simpl. rewrite !orb_true_iff.
  intros [H|[H|[H|H]]]; [| | |discriminate];
    apply String.eqb_eq in H; auto.
Qed.

(** ** [str.split] and [str.lower] *)

Lemma split_parts_no_sep sep s part :
  In part (split sep s) -> occurs sep part = false.
Proof.
  revert part. induction s as [|c s IH]; simpl; intros part.
  - intros [<-|[]]. reflexivity.
  - destruct (Ascii.eqb c sep) eqn:Hc.
    + intros [<-|H]; [reflexivity|auto].
    + destruct (split sep s) as [|x xs]; simpl.
      * intros [<-|[]]. simpl. rewrite Hc. reflexivity.
      * intros [<-|H].
        -- simpl. rewrite Hc. apply IH. left. reflexivity.
        -- apply IH. right. exact H.
Qed.

Lemma getitem_last_In {A} (xs : list A) x :
  getitem_last xs = Return x -> In x xs.
Proof.
  unfold getitem_last. destruct (rev xs) as [|y ys] eqn:E; [discriminate|].
  intros [= <-]. apply in_rev. rewrite E. left. reflexivity.
Qed.

Lemma split_singleton sep s x :
  split sep s = [x] -> x = s /\ occurs sep s = false.
Proof.
  revert x. induction s as [|c s IH]; simpl; intros x.
  - intros [= <-]. auto.
  - destruct (Ascii.eqb c sep) eqn:Hc.
    + intros [= _ H]. destruct (split_nonempty _ _ H).
    + destruct (split sep s) as [|y ys] eqn:E; [intros [= <-]|].
      * destruct (split_nonempty _ _ E).
      * intros [= <- ->]. destruct (IH y eq_refl) as [-> Ho]. auto.
Qed.

Lemma occurs_app_sep sep pre part :
  occurs sep (pre +:+ String sep part) = true.
Proof.
  induction pre as [|c pre IH]; simpl.
  - rewrite Ascii.eqb_refl. reflexivity.
  - rewrite IH. apply orb_true_r.
Qed.

Lemma last_cons_nonempty {A} (x : A) xs d : xs <> [] -> List.last (x :: xs) d = List.last xs d.
Proof. destruct xs; [congruence|reflexivity]. Qed.

(** The last part of a split is the text after the last separator. *)
Lemma split_last sep s :
  (occurs sep s = false /\ split sep s = [s]) \/
  (exists pre, s = pre +:+ String sep (List.last (split sep s) "")).
Proof.
  induction s as [|c s IH]; [left; auto|].
  cbn [split occurs]. destruct (Ascii.eqb c sep) eqn:Hc.
  - apply Ascii.eqb_eq in Hc as ->. right.
    rewrite (last_cons_nonempty _ _ _ (split_nonempty sep s)).
    destruct IH as [[_ ->]|[pre Hpre]].
    + exists "". reflexivity.
    + exists (String sep pre). rewrite Hpre at 1. reflexivity.
  - destruct IH as [[Ho Hs]|[pre Hpre]].
    + left. rewrite Hs, Ho. auto.
    + right. destruct (split sep s) as [|x xs] eqn:E;
        [destruct (split_nonempty _ _ E)|].
      destruct xs as [|y ys].
      * destruct (split_singleton _ _ _ E) as [_ Ho].
        rewrite Hpre, occurs_app_sep in Ho. discriminate.
      * exists (String c pre). rewrite Hpre at 1. reflexivity.
Qed.

Lemma getitem_last_last (xs : list string) x :
  getitem_last xs = Return x -> List.last xs "" = x.
Proof.
  unfold getitem_last. destruct (rev xs) as [|y ys] eqn:E; [discriminate|].
  intros [= <-]. apply (f_equal (@rev _)) in E. rewrite rev_involutive in E.
  rewrite E. simpl. apply last_last.
Qed.

Lemma is_ascii_app pre s :
  is_ascii (pre +:+ s) = true -> is_ascii s = true.
Proof.
  induction pre as [|c pre IH]; simpl; [auto|].
  intros H. apply andb_true_iff in H as [_ H]. auto.
Qed.

(** One character and its lower-case form: the same character, or a
    letter of A to Z and the character 32 places further. *)
Definition lowered (c c' : ascii) : Prop :=
  c' = c \/
  (occurs c capitals = true /\ nat_of_ascii c' = nat_of_ascii c + 32).

Lemma lower_ascii_dot c :
  Ascii.eqb (lower_ascii c) "." = Ascii.eqb c ".".
Proof. destruct c as [[] [] [] [] [] [] [] []]; reflexivity. Qed.

Lemma lower_ascii_no_capital c : occurs (lower_ascii c) capitals = false.
Proof. destruct c as [[] [] [] [] [] [] [] []]; reflexivity. Qed.

Lemma lower_ascii_lowered c : lowered c (lower_ascii c).
Proof.
  destruct c as [[] [] [] [] [] [] [] []];
    first [left; reflexivity | right; split; reflexivity].
Qed.

Lemma lower_ascii_fixed c : occurs c capitals = false -> lower_ascii c = c.
Proof.
  destruct c as [[] [] [] [] [] [] [] []];
    first [reflexivity | discriminate].
Qed.

Lemma occurs_dot_lower s : occurs "." (ascii_lower s) = occurs "." s.
Proof.
  induction s as [|c s IH]; simpl; [reflexivity|].
  rewrite lower_ascii_dot, IH. reflexivity.
Qed.

Lemma ascii_lower_no_capital s : has_capital (ascii_lower s) = false.
Proof.
  induction s as [|c s IH]; [reflexivity|].
  cbn [ascii_lower has_capital]. rewrite lower_ascii_no_capital, IH.
  reflexivity.
Qed.

Lemma ascii_lower_lowered s :
  Forall2 lowered (String.list_ascii_of_string s)
                  (String.list_ascii_of_string (ascii_lower s)).
Proof.
  induction s as [|c s IH]; simpl; constructor;
    [apply lower_ascii_lowered|exact IH].
Qed.

Lemma ascii_lower_fixed s : has_capital s = false -> ascii_lower s = s.
Proof.
  induction s as [|c s IH]; [reflexivity|].
  cbn [ascii_lower has_capital]. intros H.
  apply orb_false_iff in H as [Hc Hs].
  rewrite (lower_ascii_fixed _ Hc), (IH Hs). reflexivity.
Qed.

Section WithLibrary.
Variable L : Library.

(** X3. [load_data] returns a table exactly when the inferred tag is one of
    csv, xlsx, json, the reader of that format returns this table, and the
    table is not empty.  So a table that comes out of [load_data] has at
    least one row and one column. *)
Theorem load_data_returns_iff file_path d :
  load_data L file_path = Return d <->
  exists file_format,
    try_infer_format L file_path = Return file_format /\
    ((file_format = "csv" /\ read_csv L file_path = Return d) \/
     (file_format = "xlsx" /\ read_excel L file_path = Return d) \/
     (file_format = "json" /\ read_json L file_path = Return d)) /\
    0 < length (rows d) /\ 0 < length (columns d).
Proof.
  split.
  - unfold load_data.
    destruct (try_infer_format L file_path) as [file_format|e];
      [|discriminate].
    py_step. intros H. exists file_format. split; [reflexivity|].
    destruct (contains supported file_format) eqn:Hs; [|discriminate].
    apply contains_supported_true in Hs.
    assert (Hd : parse L file_format file_path = Return (Some d) /\
                 empty d = false).
    { destruct (parse L file_format file_path) as [[t|]|e];
        cbn in H; try discriminate.
      destruct (empty t) eqn:He; [discriminate|].
      injection H as <-. auto. }
    destruct Hd as [Hp He]. split.
    + unfold parse in Hp.
      destruct Hs as [-> | [-> | ->]]; simpl in Hp; py_step;
        [left|right; left|right; right]; (split; [reflexivity|]);
        [destruct (read_csv L file_path)
        |destruct (read_excel L file_path)
        |destruct (read_json L file_path)];
        cbn in Hp; congruence.
    + unfold empty in He. apply orb_false_iff in He as [Hr Hc].
      apply Nat.eqb_neq in Hr, Hc. lia.
  - intros (file_format & Hf & Hr & Hrows & Hcols).
    destruct (parse_supported L _ _ _ Hr) as [Hs Hp].
    unfold load_data. rewrite Hf. py_step. rewrite Hs, Hp.
    cbn [try_except Py.bind]. unfold empty.
    destruct (length (rows d)); [lia|].
    destruct (length (columns d)); [lia|]. reflexivity.
Qed.

(** X4. An exception of the reader of a supported format does not reach the
    caller, nor the handler of line 71: whatever was raised, [load_data]
    raises AttributeError, from the class name after [except]. *)
Theorem load_data_reader_error_masked file_path file_format e :
  try_infer_format L file_path = Return file_format ->
  (file_format = "csv" /\ read_csv L file_path = Raise e) \/
  (file_format = "xlsx" /\ read_excel L file_path = Raise e) \/
  (file_format = "json" /\ read_json L file_path = Raise e) ->
  load_data L file_path = Raise EmptydfError_missing.
Proof.
  intros Hf Hr.
  apply (load_data_parser_exception_masked L _ file_format e Hf).
  - destruct Hr as [[-> _]|[[-> _]|[-> _]]]; reflexivity.
  - unfold parse.
    destruct Hr as [[-> H]|[[-> H]|[-> H]]]; simpl; rewrite H; reflexivity.
Qed.

(** X5. A path with a MIME type whose subtype is not literally csv, xlsx or
    json is rejected as unsupported, whatever the file holds and without a
    reader being tried.  The registered types of [.xlsx] and [.xls] are
    such types. *)
Theorem load_data_mime_subtype_rejected file_path typ sub :
  guess_type L file_path = Some (typ +:+ "/" +:+ sub) ->
  occurs "/" typ = false -> occurs "/" sub = false ->
  sub <> "csv" -> sub <> "xlsx" -> sub <> "json" ->
  load_data L file_path = Raise (UnsupportedFormat sub).
Proof.
  intros Hm Ht Hs H1 H2 H3. unfold load_data.
  rewrite (try_infer_format_mime L _ _ _ Hm Ht Hs). py_step.
  rewrite (contains_supported_false _ H1 H2 H3). reflexivity.
Qed.

(** X6. For a path of ASCII characters to which neither the MIME table nor
    the content gives an answer, the tag is the text after the last dot of
    the path (the whole path when it has no dot) with the letters A to Z
    turned into a to z: character by character it is that text or its
    lower-case form, no capital letter and no dot is left in it, and it is
    that text itself when that has no capital letter. *)
Theorem try_infer_format_fallback_tag file_path :
  truthy_str (guess_type L file_path) = false ->
  filetype_guess L file_path = Return None ->
  is_ascii file_path = true ->
  exists part tag,
    ((occurs "." file_path = false /\ part = file_path) \/
     (exists pre, file_path = pre +:+ "." +:+ part)) /\
    occurs "." part = false /\
    try_infer_format L file_path = Return tag /\
    Forall2 lowered (String.list_ascii_of_string part) (String.list_ascii_of_string tag) /\
    has_capital tag = false /\
    occurs "." tag = false /\
    (has_capital part = false -> tag = part).
Proof.
  intros Hm Hk Ha.
  destruct (try_infer_format_fallback L _ Hm Hk) as (part & Hpart & Htag).
  assert (Hdot : occurs "." part = false)
    by (apply (split_parts_no_sep "." file_path), getitem_last_In, Hpart).
  assert (Hsuffix : (occurs "." file_path = false /\ part = file_path) \/
                    (exists pre, file_path = pre +:+ "." +:+ part)).
  { apply getitem_last_last in Hpart.
    destruct (split_last "." file_path) as [[Ho Hs]|[pre Hpre]].
    - left. split; [exact Ho|]. rewrite Hs in Hpart. symmetry. exact Hpart.
    - right. exists pre. rewrite Hpart in Hpre. exact Hpre. }
  assert (Hascii : is_ascii part = true).
  { destruct Hsuffix as [[_ ->]|[pre Hpre]]; [exact Ha|].
    rewrite Hpre in Ha. apply is_ascii_app in Ha.
    apply (is_ascii_app "." part) in Ha. exact Ha. }
  exists part, (ascii_lower part).
  split; [exact Hsuffix|]. split; [exact Hdot|].
  split; [rewrite Htag; unfold str_lower; rewrite Hascii; reflexivity|].
  split; [apply ascii_lower_lowered|].
  split; [apply ascii_lower_no_capital|].
  split; [rewrite occurs_dot_lower; exact Hdot|].
  apply ascii_lower_fixed.
Qed.

(** X7. Content sniffing runs outside the [try]: when there is no MIME type
    and [filetype.guess] raises, for a file that cannot be read say, that
    exception reaches the caller of [load_data] as it is. *)
Theorem load_data_sniffing_error_propagates file_path e :
  truthy_str (guess_type L file_path) = false ->
  filetype_guess L file_path = Raise e ->
  try_infer_format L file_path = Raise e /\
  load_data L file_path = Raise e.
Proof.
  intros Hm Hk.
  assert (Hf : try_infer_format L file_path = Raise e)
    by (unfold try_infer_format; rewrite Hm, Hk; reflexivity).
  split; [exact Hf|]. unfold load_data. rewrite Hf. reflexivity.
Qed.

End WithLibrary.

End LoaderExtras.

(* ===================================================================== *)
(** * The loader against its specification, by file name                  *)
(* ===================================================================== *)

Module LoaderClaims.
Import DataLoader DataLoaderFacts LoaderExtras.

Lemma try_infer_format_of_mime L file_path typ sub :
  guess_type L file_path = Some (typ +:+ "/" +:+ sub) ->
  occurs "/" typ = false -> occurs "/" sub = false ->
  try_infer_format L file_path = Return sub.
Proof. apply try_infer_format_mime. Qed.

(** With the class that pandas does raise for an input without data named
    after [except], the handler of line 71 would run. *)
Lemma handler_with_EmptyDataError {A} msg (handler : outcome A) :
  try_except (Raise (LibError "pandas.errors.EmptyDataError" msg))
             (getattr_errors "EmptyDataError") handler = handler.
Proof. reflexivity. Qed.

Section WithLibrary.
Variable L : Library.

(** C1. Files under their usual names, where the MIME table knows the
    three extensions, each holding a non-empty table that the reader of
    its format returns.  The CSV file and the JSON file are returned as
    read.  The workbook named [.xlsx] is not: the subtype of its MIME type
    is not the tag "xlsx", so [load_data] raises the unsupported-format
    ValueError and [read_excel] is never tried. *)
Theorem load_data_by_file_name file_path d :
  empty d = false ->
  (guess_type L file_path = Some "text/csv" ->
   read_csv L file_path = Return d ->
   load_data L file_path = Return d) /\
  (guess_type L file_path = Some "application/json" ->
   read_json L file_path = Return d ->
   load_data L file_path = Return d) /\
  (guess_type L file_path = Some Samples.xlsx_mime ->
   read_excel L file_path = Return d ->
   load_data L file_path
     = Raise (UnsupportedFormat
                "vnd.openxmlformats-officedocument.spreadsheetml.sheet") /\
   is_Return (load_data L file_path) = false).
Proof.
  intros He.
  assert (Hok : forall file_format,
             try_infer_format L file_path = Return file_format ->
             parse L file_format file_path = Return (Some d) ->
             contains supported file_format = true ->
             load_data L file_path = Return d).
  { intros file_format Hf Hp Hs. unfold load_data. rewrite Hf. py_step.
    rewrite Hs, Hp. cbn [try_except Py.bind]. rewrite He. reflexivity. }
  split; [|split].
  - intros Hm Hr. apply (Hok "csv"); [|unfold parse; cbn; rewrite Hr|]; try reflexivity.
    apply (try_infer_format_of_mime L file_path "text" "csv" Hm); reflexivity.
  - intros Hm Hr. apply (Hok "json"); [|unfold parse; cbn; rewrite Hr|]; try reflexivity.
    apply (try_infer_format_of_mime L file_path "application" "json" Hm); reflexivity.
  - intros Hm _. rewrite (load_data_xlsx_by_mime_rejected L _ Hm).
    split; reflexivity.
Qed.

(** C4. A CSV file of zero bytes, named [.csv]: [pd.read_csv] raises
    EmptyDataError, the class named at line 70 does not exist, and
    [load_data] raises AttributeError, which is not the empty-file
    ValueError of line 71 nor that of line 76. *)
Theorem load_data_zero_byte_csv file_path msg :
  guess_type L file_path = Some "text/csv" ->
  read_csv L file_path
    = Raise (LibError "pandas.errors.EmptyDataError" msg) ->
  load_data L file_path = Raise EmptydfError_missing /\
  (forall e, load_data L file_path = Raise e -> ~ is_EmptyFile file_path e).
Proof.
  intros Hm Hr.
  assert (Hload : load_data L file_path = Raise EmptydfError_missing).
  { apply (load_data_parser_exception_masked L _ "csv"
             (LibError "pandas.errors.EmptyDataError" msg)).
    - apply (try_infer_format_of_mime L file_path "text" "csv" Hm); reflexivity.
    - reflexivity.
    - unfold parse. cbn. rewrite Hr. reflexivity. }
  split; [exact Hload|].
  intros e He. rewrite Hload in He. injection He as <-.
  intros [H|H]; discriminate H.
Qed.

End WithLibrary.

End LoaderClaims.

(* ===================================================================== *)
(** * Further properties: the cleaner                                     *)
(* ===================================================================== *)

Module CleanerExtras.
Import Cleaner RunFacts PandasFacts CleanerFacts.

(** ** The store only grows *)

Lemma run_deref_dangling {B} ref (k : DataFrame -> M B) st :
  frames st !! ref = None -> (deref ref ≫= k) st = (Raise (Dangling ref), st).
Proof. intros H. rewrite run_bind. unfold deref. rewrite H. reflexivity. Qed.

Lemma keeps_extends {A} (c : M A) : keeps_store c -> extends_store c.
Proof. intros H st. rewrite H. reflexivity. Qed.

Lemma extends_store_bind {A B} (c : M A) (k : A -> M B) :
  extends_store c -> (forall a, extends_store (k a)) -> extends_store (c ≫= k).
Proof.
  intros Hc Hk st. rewrite run_bind. specialize (Hc st).
  destruct (c st) as [[a|e] st']; simpl in *; [|exact Hc].
  etransitivity; [exact Hc|apply Hk].
Qed.

Lemma fresh_unused (st : state) : frames st !! fresh (dom (frames st)) = None.
Proof. apply not_elem_of_dom, is_fresh. Qed.

Lemma extends_store_alloc d : extends_store (alloc d).
Proof. intros st. cbn. apply insert_subseteq, fresh_unused. Qed.

Lemma extends_store_if {A} (b : bool) (c1 c2 : M A) :
  extends_store c1 -> extends_store c2 -> extends_store (if b then c1 else c2).
Proof. destruct b; auto. Qed.

Section WithLibrary.
Variable L : Library.

Lemma handle_missing_values_no_method df d counts options st :
  any counts = true ->
  options !! "method" = None ->
  handle_missing_values L df d counts options st = (Raise (KeyError "method"), st).
Proof.
  intros Hany Hm. unfold handle_missing_values. rewrite Hany.
  apply run_lift_raise. unfold dict_getitem. rewrite Hm. reflexivity.
Qed.

Lemma handle_missing_values_fillna df d counts options st :
  any counts = true ->
  options !! "method" = Some (VStr "fillna") ->
  handle_missing_values L df d counts options st =
    match fillna_ellipsis L d with
    | Return filled =>
        (Return (fresh (dom (frames st))),
         mkState (<[fresh (dom (frames st)) := filled]> (frames st))
                 (stdout st ++
                  [Print [IStr (nl +:+ "Filled missing values using specified strategy")]]))
    | Raise e => (Raise e, st)
    end.
Proof.
  intros Hany Hm. unfold handle_missing_values. rewrite Hany.
  assert (Hget : dict_getitem options "method" = Return (VStr "fillna"))
    by (unfold dict_getitem; rewrite Hm; reflexivity).
  rewrite (run_lift_return _ _ _ _ Hget). cbn [eq_str].
  change (String.eqb "fillna" drop_missing) with false. cbv iota.
  rewrite (run_lift_return _ _ _ _ Hget). cbn [eq_str].
  change (String.eqb "fillna" fill_missing) with true. cbv iota.
  destruct (fillna_ellipsis L d) as [filled|e]; reflexivity.
Qed.

Lemma handle_missing_values_extends df d counts options :
  extends_store (handle_missing_values L df d counts options).
Proof.
  unfold handle_missing_values.
  repeat first
    [ apply extends_store_alloc
    | apply keeps_extends; solve [auto with store]
    | apply extends_store_if
    | apply extends_store_bind; [|intros ?] ].
Qed.

Lemma clean_data_extends df options : extends_store (clean_data L df options).
Proof.
  unfold clean_data. cbv zeta.
  repeat first
    [ apply handle_missing_values_extends
    | apply keeps_extends, check_duplicates_keeps_store
    | apply keeps_extends, identify_outliers_keeps_store
    | apply keeps_extends; solve [auto with store]
    | apply extends_store_bind; [|intros ?] ].
Qed.

Lemma handle_missing_values_same_method df d counts options options' :
  options !! "method" = options' !! "method" ->
  handle_missing_values L df d counts options
  = handle_missing_values L df d counts options'.
Proof.
  intros H. unfold handle_missing_values, dict_getitem. rewrite H. reflexivity.
Qed.

(** X8. A table with a missing value and options without the key "method":
    [clean_data] raises KeyError for that key; nothing is returned and the
    store is as before. *)
Theorem clean_data_missing_method_key df d r options st :
  frames st !! df = Some d ->
  well_formed d ->
  In r (rows d) -> row_has_missing r = true ->
  options !! "method" = None ->
  (clean_data L df options st).1 = Raise (KeyError "method") /\
  frames (clean_data L df options st).2 = frames st.
Proof.
  intros Hdf Hwf Hr Hmiss Hm. rewrite (clean_data_run _ _ _ _ _ Hdf).
  rewrite (handle_missing_values_no_method df d _ options _
             (any_isnull_sum_missing _ _ Hwf Hr Hmiss) Hm).
  split; reflexivity.
Qed.

(** X9. Whatever the arguments and however the run ends, every table that
    was in the store before [clean_data] is there, unchanged, afterwards:
    the input is never modified in place and nothing is removed. *)
Theorem clean_data_keeps_every_table df options st ref d :
  frames st !! ref = Some d ->
  frames (clean_data L df options st).2 !! ref = Some d.
Proof.
  intros H. eapply lookup_weaken; [exact H|apply clean_data_extends].
Qed.


(** X11. The key "threshold" is never read: two option dictionaries with the
    same entry for "method" give the same run, result, output and store;
    options without a threshold raise no KeyError for it. *)
Theorem clean_data_ignores_threshold df options options' st :
  options !! "method" = options' !! "method" ->
  clean_data L df options st = clean_data L df options' st.
Proof.
  intros H. destruct (frames st !! df) as [d|] eqn:Hdf.
  - rewrite !(clean_data_run _ _ d _ _ Hdf).
    rewrite (handle_missing_values_same_method df d _ _ _ H). reflexivity.
  - unfold clean_data. rewrite !run_print.
    rewrite !run_deref_dangling by exact Hdf. reflexivity.
Qed.

(** X12. With the filling method and a missing value present, the table is
    handed to [df.fillna(...)]: if that call raises, [clean_data] raises the
    same exception and the store is as before; if it returns, its result is
    stored as a new table, and the run then ends at line 57. *)
Theorem clean_data_fillna df d r options st :
  frames st !! df = Some d ->
  well_formed d ->
  In r (rows d) -> row_has_missing r = true ->
  options !! "method" = Some (VStr "fillna") ->
  match fillna_ellipsis L d with
  | Raise e =>
      (clean_data L df options st).1 = Raise e /\
      frames (clean_data L df options st).2 = frames st
  | Return filled =>
      (clean_data L df options st).1 = Raise zscore_error /\
      frames (clean_data L df options st).2
        = <[fresh (dom (frames st)) := filled]> (frames st)
  end.
Proof.
  intros Hdf Hwf Hr Hmiss Hm.
  pose proof (any_isnull_sum_missing _ _ Hwf Hr Hmiss) as Hany.
  pose proof (handle_missing_values_fillna df d _ options (reported st d)
                Hany Hm) as Hstep.
  destruct (fillna_ellipsis L d) as [filled|e].
  - apply (clean_data_raises_after_step2 L _ _ _ _ _ _ filled Hdf Hstep).
    apply lookup_insert_eq.
  - rewrite (clean_data_run _ _ _ _ _ Hdf), Hstep. split; reflexivity.
Qed.

End WithLibrary.

End CleanerExtras.

(* ===================================================================== *)
(** * Further properties: the inspector                                   *)
(* ===================================================================== *)

Module InspectorExtras.
Import Inspector RunFacts InspectorFacts InspectorClaims.

Section WithLibrary.
Variable L : Library.

(** X14. Inspection is read-only: whatever the arguments and however the
    run ends, the store of tables after [inspect_data] is the store
    before it. *)
Theorem inspect_data_keeps_store df columns_for_corr columns_for_skewness :
  keeps_store (inspect_data L df columns_for_corr columns_for_skewness).
Proof.
  unfold inspect_data, print_basic_info, check_missing_values,
    print_summary_stats, check_duplicate_rows, check_outliers,
    check_df_ranges, optional_steps, perform_corr_analysis, check_skewness,
    perform_visual_exploration, perform_time_series_analysis.
  cbv zeta. keeps_store.
Qed.

Lemma later_steps_emit df columns_for_corr columns_for_skewness :
  emits (fun _ => True)
    (print_summary_stats L df;;
     check_duplicate_rows L df;;
     check_outliers L df;;
     check_df_ranges L df;;
     optional_steps L df columns_for_corr columns_for_skewness;;
     perform_visual_exploration L df;;
     perform_time_series_analysis df).
Proof.
  unfold print_summary_stats, check_duplicate_rows, check_outliers,
    check_df_ranges, optional_steps, perform_corr_analysis, check_skewness,
    perform_visual_exploration, perform_time_series_analysis.
  emits_steps ltac:(exact I).
Qed.

Lemma output_of_bind {A B} P (c : M A) (k : A -> M B) st a st1 out1 :
  c st = (Return a, st1) ->
  stdout st1 = stdout st ++ out1 ->
  emits P (k a) ->
  output_of (c ≫= k) st = out1 ++ output_of (k a) st1.
Proof.
  intros Hc Hout Hk. unfold output_of. rewrite (run_returns _ _ _ _ _ Hc).
  destruct (Hk st1) as (outk & -> & _).
  rewrite drop_app_length, Hout, <- app_assoc. apply drop_app_length.
Qed.

Lemma print_basic_info_run df d st :
  frames st !! df = Some d ->
  print_basic_info L df st =
    (Return tt,
     mkState (frames st)
       (stdout st ++
        [ Print [IFormat "The data has {} rows and {} columns."
                         [ANat (length (rows d)); ANat (length (columns d))]];
          Print [IStr "data types of the columns:"];
          Print [INames (dtypes L d)] ])).
Proof.
  intros H. unfold print_basic_info. rewrite (run_deref _ _ _ _ H), !run_print.
  unfold print. cbn [frames stdout shape fst snd].
  rewrite <- !app_assoc. reflexivity.
Qed.

Lemma check_missing_values_run df d st :
  frames st !! df = Some d ->
  check_missing_values df st =
    (Return tt,
     mkState (frames st)
       (stdout st ++
        [ Print [IStr "Number of missing values in each column:"];
          Print [ICounts (isnull_sum d)] ])).
Proof.
  intros H. unfold check_missing_values. rewrite run_print.
  rewrite (run_deref _ d) by exact H.
  unfold print. cbn [frames stdout]. rewrite <- !app_assoc. reflexivity.
Qed.

(** X15. On a table of the store, the report of [inspect_data] opens with
    the number of rows and of columns of that table, the column types and
    the count of missing cells of every column, whatever happens later in
    the run. *)
Theorem inspect_data_opens_with_shape_and_missing
    df d columns_for_corr columns_for_skewness st :
  frames st !! df = Some d ->
  exists rest,
    output_of (inspect_data L df columns_for_corr columns_for_skewness) st =
      [ Print [IFormat "The data has {} rows and {} columns."
                       [ANat (length (rows d)); ANat (length (columns d))]];
        Print [IStr "data types of the columns:"];
        Print [INames (dtypes L d)];
        Print [IStr "Number of missing values in each column:"];
        Print [ICounts (isnull_sum d)] ] ++ rest.
Proof.
  intros H. unfold inspect_data.
  rewrite (output_of_bind (fun _ => True) _ _ _ _ _ _
             (print_basic_info_run df d st H) eq_refl).
  - cbv beta.
    erewrite (output_of_bind (fun _ => True) _ _ _ _ _ _
                (check_missing_values_run df d (mkState (frames st) _) H)
                eq_refl).
    + eexists. reflexivity.
    + apply later_steps_emit.
  - apply emits_bind; [|intros _; apply later_steps_emit].
    unfold check_missing_values. emits_steps ltac:(exact I).
Qed.

Lemma check_outliers_no_show df :
  emits (fun ev => ev <> Show) (check_outliers L df).
Proof.
  unfold check_outliers. cbv zeta.
  do 6 (apply emits_bind; [emits_steps ltac:(discriminate)|intros ?]).
  apply emits_bind_raises; [apply emits_lift|apply raises_Index_bool].
Qed.

Lemma perform_visual_exploration_no_show df :
  emits (fun ev => ev <> Show) (perform_visual_exploration L df).
Proof.
  unfold perform_visual_exploration. cbv zeta.
  do 2 (apply emits_bind; [emits_steps ltac:(discriminate)|intros ?]).
  apply emits_bind_raises; [apply emits_lift|apply raises_Index_bool].
Qed.

Lemma perform_visual_exploration_raises df :
  raises (perform_visual_exploration L df).
Proof.
  unfold perform_visual_exploration. cbv zeta.
  do 2 (apply raises_bind_right; intros ?).
  apply raises_bind_left, raises_Index_bool.
Qed.

Lemma inspect_data_no_show df columns_for_corr columns_for_skewness :
  emits (fun ev => ev <> Show)
        (inspect_data L df columns_for_corr columns_for_skewness).
Proof.
  unfold inspect_data.
  apply emits_bind;
    [unfold print_basic_info; emits_steps ltac:(discriminate)|intros _].
  apply emits_bind;
    [unfold check_missing_values; emits_steps ltac:(discriminate)|intros _].
  apply emits_bind;
    [unfold print_summary_stats; emits_steps ltac:(discriminate)|intros _].
  apply emits_bind;
    [unfold check_duplicate_rows; emits_steps ltac:(discriminate)|intros _].
  apply emits_bind_raises;
    [apply check_outliers_no_show|apply check_outliers_raises].
Qed.

(** X16. No plot is ever shown: [check_outliers] and
    [perform_visual_exploration] raise before they reach [plt.show()], for
    every table and every behaviour of the libraries, and so does
    [inspect_data]; [perform_visual_exploration] returns from no state. *)
Theorem no_plot_is_shown df columns_for_corr columns_for_skewness st :
  ~ In Show (output_of (check_outliers L df) st) /\
  ~ In Show (output_of (perform_visual_exploration L df) st) /\
  ~ In Show (output_of (inspect_data L df columns_for_corr columns_for_skewness) st) /\
  is_Return (perform_visual_exploration L df st).1 = false.
Proof.
  assert (Hno : forall (c : M unit),
             emits (fun ev => ev <> Show) c -> ~ In Show (output_of c st)).
  { intros c Hc Hin. apply (output_of_emits _ _ st) in Hc.
    rewrite List.Forall_forall in Hc. exact (Hc _ Hin eq_refl). }
  split; [apply Hno, check_outliers_no_show|].
  split; [apply Hno, perform_visual_exploration_no_show|].
  split; [apply Hno, inspect_data_no_show|].
  apply perform_visual_exploration_raises.
Qed.

(** X17. Lines 132-138 run on their own, from any state.  The skewness
    section is opened only for a non-empty list [columns_for_skewness]
    ([None] and the empty list both skip it), and it is opened for such a
    list when the correlation step is skipped.  When the correlation step
    runs and [df[cols].corr()] raises, the exception ends the run and the
    requested skewness section is not produced. *)
Theorem optional_steps_skew_gate df d columns_for_corr columns_for_skewness st :
  frames st !! df = Some d ->
  let out := output_of (optional_steps L df columns_for_corr columns_for_skewness) st in
  (In skew_header out -> truthy_list columns_for_skewness = true) /\
  (truthy_list columns_for_corr = false ->
   truthy_list columns_for_skewness = true -> In skew_header out) /\
  (forall e,
     truthy_list columns_for_corr = true ->
     corr L d (default [] columns_for_corr) = Raise e ->
     (optional_steps L df columns_for_corr columns_for_skewness st).1 = Raise e /\
     ~ In skew_header out).
Proof.
  intros H out. subst out. split; [|split].
  - destruct (truthy_list columns_for_skewness) eqn:Hs; [reflexivity|].
    intros Hin. exfalso.
    assert (He : emits (fun ev => ev <> skew_header)
                   (optional_steps L df columns_for_corr columns_for_skewness)).
    { unfold optional_steps, perform_corr_analysis. rewrite Hs.
      emits_steps ltac:(discriminate). }
    apply (output_of_emits _ _ st) in He.
    rewrite List.Forall_forall in He. exact (He _ Hin eq_refl).
  - intros Hc Hs. unfold optional_steps. rewrite Hc, Hs.
    change (output_of (mret tt ;; check_skewness L df (default [] columns_for_skewness)) st)
      with (output_of (check_skewness L df (default [] columns_for_skewness)) st).
    unfold check_skewness.
    erewrite (output_of_bind (fun _ => True) (print _) _ st tt _ [_]);
      [left; reflexivity|reflexivity|reflexivity|].
    emits_steps ltac:(exact I).
  - intros e Hc Hr. unfold optional_steps, output_of. rewrite Hc.
    assert (Hrun : perform_corr_analysis L df (default [] columns_for_corr) st
                   = (Raise e, mkState (frames st) (stdout st ++ [corr_header]))).
    { unfold perform_corr_analysis. rewrite run_print.
      rewrite (run_deref _ d) by exact H.
      rewrite (run_lift_raise _ e) by exact Hr. reflexivity. }
    rewrite (run_raises _ _ _ _ _ Hrun). cbn [fst snd stdout].
    split; [reflexivity|]. rewrite drop_app_length.
    intros [Hin|[]]. discriminate Hin.
Qed.

End WithLibrary.

End InspectorExtras.

(* ===================================================================== *)
(** * The further properties at the sample environment                    *)
(* ===================================================================== *)

Module ExtraInstances.
Import DataLoader Cleaner Inspector PathValidator.
Import LoaderExtras CleanerExtras InspectorExtras.
Import Samples MoreSamples.

(** JSON records under a [.csv] name: the CSV reader fails on them, and the
    caller sees AttributeError. *)
Lemma records_csv_reader_error_masked :
  try_infer_format library "/data/records.csv" = Return "csv" /\
  read_csv library "/data/records.csv"
    = Raise (LibError "pandas.errors.ParserError" "Error tokenizing data") /\
  load_data library "/data/records.csv" = Raise EmptydfError_missing.
Proof.
  split; [reflexivity|]. split; [reflexivity|].
  apply (load_data_reader_error_masked library "/data/records.csv" "csv"
           (LibError "pandas.errors.ParserError" "Error tokenizing data"));
    [reflexivity | left; split; reflexivity].
Defined.

(** A spreadsheet named [.xlsx], which the Excel reader would read. *)
Lemma book_xlsx_rejected :
  read_excel library "/data/book.xlsx" = Return people /\
  guess_type library "/data/book.xlsx"
    = Some ("application" +:+ "/" +:+
            "vnd.openxmlformats-officedocument.spreadsheetml.sheet") /\
  load_data library "/data/book.xlsx"
    = Raise (UnsupportedFormat
               "vnd.openxmlformats-officedocument.spreadsheetml.sheet").
Proof.
  split; [reflexivity|]. split; [reflexivity|].
  apply (load_data_mime_subtype_rejected library "/data/book.xlsx" "application");
    [reflexivity | reflexivity | reflexivity
    | discriminate | discriminate | discriminate].
Defined.

Lemma notes_md_fallback_tag :
  truthy_str (guess_type library "/data/notes.md") = false /\
  filetype_guess library "/data/notes.md" = Return None /\
  is_ascii "/data/notes.md" = true /\
  try_infer_format library "/data/notes.md" = Return "md".
Proof.
  split; [reflexivity|]. split; [reflexivity|]. split; [reflexivity|].
  destruct (try_infer_format_fallback_tag library "/data/notes.md"
              eq_refl eq_refl eq_refl)
    as (part & tag & _ & _ & Htag & _).
  rewrite Htag. vm_compute in Htag. symmetry. exact Htag.
Defined.

Lemma missing_file_error_propagates :
  truthy_str (guess_type library "/data/missing") = false /\
  filetype_guess library "/data/missing" = no_such_file /\
  load_data library "/data/missing" = no_such_file.
Proof.
  split; [reflexivity|]. split; [reflexivity|].
  apply (load_data_sniffing_error_propagates library "/data/missing");
    reflexivity.
Defined.

Lemma heights_threshold_only_key_error :
  frames store !! 1 = Some heights /\
  threshold_only !! "method" = None /\
  (clean_data library 1 threshold_only store).1 = Raise (KeyError "method") /\
  frames (clean_data library 1 threshold_only store).2 = frames store.
Proof.
  split; [reflexivity|]. split; [reflexivity|].
  apply (clean_data_missing_method_key library 1 heights [NA]
           threshold_only store);
    [reflexivity | exact Instances.heights_well_formed | left; reflexivity
    | reflexivity | reflexivity].
Defined.

Lemma people_kept_while_heights_cleaned :
  frames store !! 0 = Some people /\
  frames (clean_data library 1 default_options store).2 !! 0 = Some people /\
  frames (clean_data library 1 default_options store).2 !! 1 = Some heights.
Proof.
  split; [reflexivity|]. split.
  - apply (clean_data_keeps_every_table library 1 default_options store 0 people).
    reflexivity.
  - apply (clean_data_keeps_every_table library 1 default_options store 1 heights).
    reflexivity.
Defined.


Lemma method_only_runs_like_default :
  default_options !! "method" = method_only !! "method" /\
  method_only !! "threshold" = None /\
  clean_data library 1 default_options store
  = clean_data library 1 method_only store.
Proof.
  split; [reflexivity|]. split; [reflexivity|].
  apply (clean_data_ignores_threshold library 1 default_options method_only store).
  reflexivity.
Defined.

Lemma heights_fillna :
  frames store !! 1 = Some heights /\
  fillna_options !! "method" = Some (VStr "fillna") /\
  fillna_ellipsis library heights = Return heights /\
  (clean_data library 1 fillna_options store).1 = Raise zscore_error /\
  frames (clean_data library 1 fillna_options store).2 !! 3 = Some heights.
Proof.
  split; [reflexivity|]. split; [reflexivity|]. split; [reflexivity|].
  pose proof (clean_data_fillna library 1 heights [NA] fillna_options store
                eq_refl Instances.heights_well_formed
                (or_introl eq_refl) eq_refl eq_refl) as H.
  cbn in H. destruct H as [Hraise Hstore].
  split; [exact Hraise|]. rewrite Hstore. reflexivity.
Defined.

Lemma measurements_report_opens :
  frames store !! 2 = Some measurements /\
  exists rest,
    output_of (inspect_data library 2 (Some ["Height"; "Weight"]) None) store =
      [ Print [IFormat "The data has {} rows and {} columns." [ANat 3; ANat 2]];
        Print [IStr "data types of the columns:"];
        Print [INames ["float64"; "float64"]];
        Print [IStr "Number of missing values in each column:"];
        Print [ICounts [0; 0]] ] ++ rest.
Proof.
  split; [reflexivity|].
  apply (inspect_data_opens_with_shape_and_missing library 2 measurements
           (Some ["Height"; "Weight"]) None store).
  reflexivity.
Defined.

Lemma measurements_skew_requested :
  frames store !! 2 = Some measurements /\
  In skew_header (output_of (optional_steps library 2 None (Some ["Height"])) store) /\
  ~ In skew_header (output_of (optional_steps library 2 None (Some [])) store).
Proof.
  split; [reflexivity|].
  destruct (optional_steps_skew_gate library 2 measurements None (Some ["Height"])
              store eq_refl) as (_ & Hopen & _).
  destruct (optional_steps_skew_gate library 2 measurements None (Some [])
              store eq_refl) as (Honly & _ & _).
  split; [apply Hopen; reflexivity|].
  intros Hin. specialize (Honly Hin). discriminate Honly.
Defined.

(** The sample directory: a file is accepted, the directory itself, a
    relative name and the empty path are not. *)
Example validate_sample_paths :
  (validate_file_path os "/data/people.csv" store).1 = Return true /\
  (validate_file_path os "/data" store).1 = Return false /\
  output_of (validate_file_path os "/data") store = [msg_not_file] /\
  output_of (validate_file_path os "people.csv") store = [msg_relative] /\
  output_of (validate_file_path os "") store = [msg_empty].
Proof. repeat split; reflexivity. Qed.

End ExtraInstances.

(* ===================================================================== *)
(** * The loader claims at the sample environment                         *)
(* ===================================================================== *)

Module LoaderClaimInstances.
Import DataLoader LoaderExtras LoaderClaims.
Import Samples MoreSamples.

(** [people.csv] and [people.json] are loaded; the workbook [book.xlsx],
    which [read_excel] reads as the same table, is rejected. *)
Lemma sample_files_by_name :
  empty people = false /\
  read_excel library "/data/book.xlsx" = Return people /\
  load_data library "/data/people.csv" = Return people /\
  load_data library "/data/people.json" = Return people /\
  load_data library "/data/book.xlsx"
    = Raise (UnsupportedFormat
               "vnd.openxmlformats-officedocument.spreadsheetml.sheet").
Proof.
  split; [reflexivity|]. split; [reflexivity|].
  split; [|split].
  - apply (proj1 (load_data_by_file_name library "/data/people.csv" people
                    eq_refl)); reflexivity.
  - apply (proj1 (proj2 (load_data_by_file_name library "/data/people.json"
                           people eq_refl))); reflexivity.
  - apply (proj2 (proj2 (load_data_by_file_name library "/data/book.xlsx"
                           people eq_refl))); reflexivity.
Defined.

Lemma zero_csv_not_empty_file :
  guess_type library_zero_csv "/data/zero.csv" = Some "text/csv" /\
  read_csv library_zero_csv "/data/zero.csv"
    = Raise (LibError "pandas.errors.EmptyDataError"
                      "No columns to parse from file") /\
  load_data library_zero_csv "/data/zero.csv" = Raise EmptydfError_missing /\
  ~ is_EmptyFile "/data/zero.csv" EmptydfError_missing.
Proof.
  split; [reflexivity|]. split; [reflexivity|].
  destruct (load_data_zero_byte_csv library_zero_csv "/data/zero.csv"
              "No columns to parse from file" eq_refl eq_refl)
    as [Hload Hnot].
  split; [exact Hload|]. exact (Hnot _ Hload).
Defined.

End LoaderClaimInstances.
